(** * FastAPIDemoCharm: a shallow embedding of [src/charm.py]

    The charm is one reactive class.  Every handler reads and writes the
    state kept by its collaborators (the orchestrator, the process
    supervisor of the workload container, the relation data bags), so a
    handler is embedded as a function from that state, the [World], to an
    outcome (normal return or a raised Python exception) and the state it
    leaves behind.  Log calls have no effect on the state and are left out. *)

From Stdlib Require Import ZArith String Ascii DecimalString DecimalZ.
From stdpp Require Import base option list gmap strings.

Open Scope Z_scope.

(** ** Python values used by the charm *)

(** [str(n)] of a Python integer, as used by the f-strings and [json.dumps]. *)
Definition str_of_int (n : Z) : string := NilZero.string_of_int (Z.to_int n).

(** [sep.join(parts)] *)
Fixpoint join (sep : string) (parts : list string) : string :=
  match parts with
  | [] => ""
  | [p] => p
  | p :: rest => p +:+ sep +:+ join sep rest
  end.

(** [s.split(sep)] for a one-character separator: always at least one field. *)
Fixpoint split (sep : ascii) (s : string) : list string :=
  match s with
  | EmptyString => [""]
  | String c s' =>
      if Ascii.eqb c sep then "" :: split sep s'
      else match split sep s' with
           | [] => [String c ""]
           | field :: fields => String c field :: fields
           end
  end.

(** Exceptions the handlers can raise. [SystemExit] is not an [Exception]
    in Python's hierarchy, the others are. *)
Inductive exn : Type :=
  | SystemExit (code : Z)
  | KeyError (key : string)
  | ValueError
  | AttributeError
  | UnboundLocalError (var : string)
  | RequestException
  | ModelError
  | RelationDataAccessError
  | OutsideModel.

Definition is_Exception (e : exn) : bool :=
  match e with
  | SystemExit _ => false
  | _ => true
  end.

(** ** ops.model statuses *)

Inductive Status : Type :=
  | ActiveStatus (message : string)
  | BlockedStatus (message : string)
  | MaintenanceStatus (message : string)
  | WaitingStatus (message : string).

(** ** ops.pebble layers, services and their dictionaries *)

Record Service : Type := mkService {
  override : string;
  svc_summary : string;
  command : string;
  startup : string;
  environment : gmap string (option string);
}.

Record Layer : Type := mkLayer {
  summary : string;
  description : string;
  services : gmap string Service;
}.

(** A dictionary produced by [to_dict()]: a key is present only when its
    value is truthy (non-empty string, non-empty mapping). *)
Record ServiceDict : Type := mkServiceDict {
  sd_override : option string;
  sd_summary : option string;
  sd_command : option string;
  sd_startup : option string;
  sd_environment : option (gmap string (option string));
}.

Record Document : Type := mkDocument {
  doc_summary : option string;
  doc_description : option string;
  doc_services : option (gmap string ServiceDict);
}.

Definition truthy_str (s : string) : option string :=
  match s with
  | EmptyString => None
  | _ => Some s
  end.

Definition truthy_map {V : Type} (m : gmap string V) : option (gmap string V) :=
  if bool_decide (dom m = ∅) then None else Some m.

Definition Service_to_dict (s : Service) : ServiceDict :=
  {| sd_override := truthy_str (override s);
     sd_summary := truthy_str (svc_summary s);
     sd_command := truthy_str (command s);
     sd_startup := truthy_str (startup s);
     sd_environment := truthy_map (environment s) |}.

Definition Layer_to_dict (l : Layer) : Document :=
  {| doc_summary := truthy_str (summary l);
     doc_description := truthy_str (description l);
     doc_services := truthy_map (Service_to_dict <$> services l) |}.

(** [Plan.to_dict()]: a plan has services but neither summary nor description. *)
Definition Plan_to_dict (plan : gmap string Service) : Document :=
  {| doc_summary := None;
     doc_description := None;
     doc_services := truthy_map (Service_to_dict <$> plan) |}.

Global Instance ServiceDict_eq_dec : EqDecision ServiceDict.
Proof. solve_decision. Defined.

Global Instance Service_eq_dec : EqDecision Service.
Proof. solve_decision. Defined.

Global Instance Document_eq_dec : EqDecision Document.
Proof. solve_decision. Defined.

Global Instance Status_eq_dec : EqDecision Status.
Proof. solve_decision. Defined.

(** ** The state the handlers act on *)

Record World : Type := mkWorld {
  (** [self.config['server-port']] *)
  config_server_port : Z;
  (** what [self.database.fetch_relation_data()] returns: the data of each
      database relation, keyed by relation id, in iteration order *)
  database_relations : list (Z * gmap string string);
  (** the application data bag of the peer relation; [None] when
      [self.model.get_relation(PEER_NAME)] is [None] *)
  peer_app_data : option (gmap string string);
  (** [self.unit.is_leader()]: only the leader may write the application
      data bag *)
  unit_is_leader : bool;
  (** [self.container.can_connect()] *)
  supervisor_reachable : bool;
  (** the services of the supervisor's current plan *)
  plan_services : gmap string Service;
  (** the answer of [GET http://localhost:<port>/version], [None] when the
      request or the decoding of its answer fails *)
  version_endpoint : Z -> option string;
  (** [self.unit.status] *)
  unit_status : Status;
  (** the ports opened for the unit *)
  opened_ports : gset Z;
  (** the calls of [container.add_layer], [container.restart],
      [unit.set_workload_version] and [event.set_results] so far *)
  added_layers : list (string * Layer);
  restarted : list string;
  workload_versions : list string;
  action_results : list (gmap string (option string));
}.

(** Field updates. *)

Definition with_peer_app_data (x : option (gmap string string)) (w : World) : World :=
  {| config_server_port := config_server_port w;
     database_relations := database_relations w;
     peer_app_data := x;
     unit_is_leader := unit_is_leader w;
     supervisor_reachable := supervisor_reachable w;
     plan_services := plan_services w;
     version_endpoint := version_endpoint w;
     unit_status := unit_status w;
     opened_ports := opened_ports w;
     added_layers := added_layers w;
     restarted := restarted w;
     workload_versions := workload_versions w;
     action_results := action_results w |}.

Definition with_plan_services (x : gmap string Service) (w : World) : World :=
  {| config_server_port := config_server_port w;
     database_relations := database_relations w;
     peer_app_data := peer_app_data w;
     unit_is_leader := unit_is_leader w;
     supervisor_reachable := supervisor_reachable w;
     plan_services := x;
     version_endpoint := version_endpoint w;
     unit_status := unit_status w;
     opened_ports := opened_ports w;
     added_layers := added_layers w;
     restarted := restarted w;
     workload_versions := workload_versions w;
     action_results := action_results w |}.

Definition with_unit_status (x : Status) (w : World) : World :=
  {| config_server_port := config_server_port w;
     database_relations := database_relations w;
     peer_app_data := peer_app_data w;
     unit_is_leader := unit_is_leader w;
     supervisor_reachable := supervisor_reachable w;
     plan_services := plan_services w;
     version_endpoint := version_endpoint w;
     unit_status := x;
     opened_ports := opened_ports w;
     added_layers := added_layers w;
     restarted := restarted w;
     workload_versions := workload_versions w;
     action_results := action_results w |}.

Definition with_opened_ports (x : gset Z) (w : World) : World :=
  {| config_server_port := config_server_port w;
     database_relations := database_relations w;
     peer_app_data := peer_app_data w;
     unit_is_leader := unit_is_leader w;
     supervisor_reachable := supervisor_reachable w;
     plan_services := plan_services w;
     version_endpoint := version_endpoint w;
     unit_status := unit_status w;
     opened_ports := x;
     added_layers := added_layers w;
     restarted := restarted w;
     workload_versions := workload_versions w;
     action_results := action_results w |}.

Definition with_added_layers (x : list (string * Layer)) (w : World) : World :=
  {| config_server_port := config_server_port w;
     database_relations := database_relations w;
     peer_app_data := peer_app_data w;
     unit_is_leader := unit_is_leader w;
     supervisor_reachable := supervisor_reachable w;
     plan_services := plan_services w;
     version_endpoint := version_endpoint w;
     unit_status := unit_status w;
     opened_ports := opened_ports w;
     added_layers := x;
     restarted := restarted w;
     workload_versions := workload_versions w;
     action_results := action_results w |}.

Definition with_restarted (x : list string) (w : World) : World :=
  {| config_server_port := config_server_port w;
     database_relations := database_relations w;
     peer_app_data := peer_app_data w;
     unit_is_leader := unit_is_leader w;
     supervisor_reachable := supervisor_reachable w;
     plan_services := plan_services w;
     version_endpoint := version_endpoint w;
     unit_status := unit_status w;
     opened_ports := opened_ports w;
     added_layers := added_layers w;
     restarted := x;
     workload_versions := workload_versions w;
     action_results := action_results w |}.

Definition with_workload_versions (x : list string) (w : World) : World :=
  {| config_server_port := config_server_port w;
     database_relations := database_relations w;
     peer_app_data := peer_app_data w;
     unit_is_leader := unit_is_leader w;
     supervisor_reachable := supervisor_reachable w;
     plan_services := plan_services w;
     version_endpoint := version_endpoint w;
     unit_status := unit_status w;
     opened_ports := opened_ports w;
     added_layers := added_layers w;
     restarted := restarted w;
     workload_versions := x;
     action_results := action_results w |}.

Definition with_action_results (x : list (gmap string (option string))) (w : World) : World :=
  {| config_server_port := config_server_port w;
     database_relations := database_relations w;
     peer_app_data := peer_app_data w;
     unit_is_leader := unit_is_leader w;
     supervisor_reachable := supervisor_reachable w;
     plan_services := plan_services w;
     version_endpoint := version_endpoint w;
     unit_status := unit_status w;
     opened_ports := opened_ports w;
     added_layers := added_layers w;
     restarted := restarted w;
     workload_versions := workload_versions w;
     action_results := x |}.

(** ** Handlers: state and exceptions *)

Inductive outcome (A : Type) : Type :=
  | Returns (a : A)
  | Raises (e : exn).
Arguments Returns {A} a.
Arguments Raises {A} e.

Definition Handler (A : Type) : Type := World -> outcome A * World.

Global Instance Handler_ret : MRet Handler :=
  fun A a w => (Returns a, w).

Global Instance Handler_bind : MBind Handler :=
  fun A B f m w =>
    match m w with
    | (Returns a, w') => f a w'
    | (Raises e, w') => (Raises e, w')
    end.

Definition raise {A : Type} (e : exn) : Handler A :=
  fun w => (Raises e, w).

Definition read {A : Type} (f : World -> A) : Handler A :=
  fun w => (Returns (f w), w).

Definition modify (f : World -> World) : Handler unit :=
  fun w => (Returns tt, f w).

(** [try: body  except Exception: handler] *)
Definition try_except_Exception {A : Type}
    (body : Handler A) (handler : exn -> Handler A) : Handler A :=
  fun w =>
    match body w with
    | (Raises e, w') => if is_Exception e then handler e w' else (Raises e, w')
    | r => r
    end.

(** [d[key]] on a dictionary *)
Definition getitem {V : Type} (d : gmap string V) (key : string) : Handler V :=
  match d !! key with
  | Some v => mret v
  | None => raise (KeyError key)
  end.

(** [a, b = parts] *)
Definition unpack2 (parts : list string) : Handler (string * string) :=
  match parts with
  | [a; b] => mret (a, b)
  | _ => raise ValueError
  end.

(** ** The collaborators' operations *)

Definition set_status (st : Status) : Handler unit :=
  modify (with_unit_status st).

Definition config_get_server_port : Handler Z := read config_server_port.

(** [unit.set_ports(port)]: the ports opened before are closed and the
    given port is opened; the orchestrator refuses a port outside 1..65535
    with [ModelError], after the other ports were closed. *)
Definition set_ports (port : Z) : Handler unit :=
  if bool_decide (1 <= port <= 65535)
  then modify (with_opened_ports {[ port ]})
  else modify (with_opened_ports ∅);; raise ModelError.

Definition set_workload_version (v : string) : Handler unit :=
  modify (fun w => with_workload_versions (workload_versions w ++ [v]) w).

Definition can_connect : Handler bool := read supervisor_reachable.

Definition get_plan : Handler (gmap string Service) := read plan_services.

(** [container.add_layer(label, layer, combine=True)]: the services of the
    layer enter the plan; a service of the same name is replaced (the
    charm's only service has [override: replace]). *)
Definition add_layer (label : string) (layer : Layer) : Handler unit :=
  modify (fun w =>
    with_added_layers (added_layers w ++ [(label, layer)])
      (with_plan_services (services layer ∪ plan_services w) w)).

Definition restart (name : string) : Handler unit :=
  modify (fun w => with_restarted (restarted w ++ [name]) w).

(** [container.get_services(name)]: the named services that are in the plan. *)
Definition get_services (name : string) : Handler (gmap string Service) :=
  read (fun w => filter (fun kv => kv.1 = name) (plan_services w)).

Definition fetch_relation_data : Handler (list (Z * gmap string string)) :=
  read database_relations.

Definition set_results (output : gmap string (option string)) : Handler unit :=
  modify (fun w => with_action_results (action_results w ++ [output]) w).

(** Runs [m] and hands its outcome to the caller as a value: the building
    block for [try] statements whose clauses assign local variables. *)
Definition attempt {A : Type} (m : Handler A) : Handler (outcome A) :=
  fun w => let '(r, w') := m w in (Returns r, w').

(** ** json.dumps and json.loads

    The peer data bag holds strings.  The charm stores [json.dumps] of a
    dictionary from strings to integers and reads it back with
    [json.loads]; this fragment of JSON is embedded.  A text outside of it
    (other value types, escapes in keys, fractions, exponents, malformed
    text) makes the model stop with [OutsideModel] rather than guess. *)

Definition dquote : ascii := "034"%char.

(** [json.dumps(d)] with the default separators, for keys that need no
    escaping. *)
Definition json_dumps (d : list (string * Z)) : string :=
  "{" +:+
  join ", " ((fun kv : string * Z =>
                String dquote (kv.1 +:+ String dquote (": " +:+ str_of_int kv.2)))
             <$> d)
  +:+ "}".

(** JSON whitespace: space, tab, line feed, carriage return. *)
Definition is_ws (c : ascii) : bool :=
  match c with
  | " " | "009" | "010" | "013" => true
  | _ => false
  end%char.

Definition is_digit (c : ascii) : bool :=
  match c with
  | "0" | "1" | "2" | "3" | "4" | "5" | "6" | "7" | "8" | "9" => true
  | _ => false
  end%char.

(** A character that stands for itself inside a JSON string. *)
Definition is_plain (c : ascii) : bool :=
  (32 <=? nat_of_ascii c)%nat && (nat_of_ascii c <? 127)%nat
  && negb (Ascii.eqb c dquote) && negb (Ascii.eqb c "\"%char).

Fixpoint skip_ws (s : string) : string :=
  match s with
  | String c s' => if is_ws c then skip_ws s' else s
  | EmptyString => EmptyString
  end.

(** The text of a string literal after its opening quote, and what follows
    the closing quote. *)
Fixpoint scan_string (s : string) : option (string * string) :=
  match s with
  | EmptyString => None
  | String c s' =>
      if Ascii.eqb c dquote then Some (EmptyString, s')
      else if is_plain c then
        match scan_string s' with
        | Some (k, rest) => Some (String c k, rest)
        | None => None
        end
      else None
  end.

(** The longest prefix made of digits and minus signs. *)
Fixpoint scan_number (s : string) : string * string :=
  match s with
  | String c s' =>
      if is_digit c || Ascii.eqb c "-"%char then
        let '(tok, rest) := scan_number s' in (String c tok, rest)
      else (EmptyString, s)
  | EmptyString => (EmptyString, EmptyString)
  end.

(** An integer literal in canonical form (no leading zero, no [-0]) that is
    not the integer part of a fraction or of a number with an exponent. *)
Definition parse_int (s : string) : option (Z * string) :=
  let '(tok, rest) := scan_number s in
  match NilZero.int_of_string tok with
  | Some d =>
      if Decimal.int_eq_dec (Decimal.norm d) d then
        match rest with
        | String c _ =>
            if bool_decide (c = "."%char ∨ c = "e"%char ∨ c = "E"%char)
            then None else Some (Z.of_int d, rest)
        | EmptyString => Some (Z.of_int d, rest)
        end
      else None
  | None => None
  end.

(** The members of an object, from the first character of a key on; a key
    that occurs again overwrites the earlier value, as in Python. *)
Fixpoint parse_members (fuel : nat) (s : string) (acc : gmap string Z)
    : option (gmap string Z) :=
  match fuel with
  | O => None
  | S fuel' =>
      match s with
      | String c s1 =>
          if Ascii.eqb c dquote then
            match scan_string s1 with
            | Some (key, s2) =>
                match skip_ws s2 with
                | String ":" s3 =>
                    match parse_int (skip_ws s3) with
                    | Some (v, s4) =>
                        let acc' := <[key := v]> acc in
                        match skip_ws s4 with
                        | String "," s5 => parse_members fuel' (skip_ws s5) acc'
                        | String "}" s5 =>
                            match skip_ws s5 with
                            | EmptyString => Some acc'
                            | _ => None
                            end
                        | _ => None
                        end
                    | None => None
                    end
                | _ => None
                end
            | None => None
            end
          else None
      | EmptyString => None
      end
  end.

(** [json.loads(s)] on the embedded fragment; [None] outside of it. *)
Definition json_loads (s : string) : option (gmap string Z) :=
  match skip_ws s with
  | String "{" s1 =>
      match skip_ws s1 with
      | String "}" s2 =>
          match skip_ws s2 with
          | EmptyString => Some ∅
          | _ => None
          end
      | s2 => parse_members (String.length s) s2 ∅
      end
  | _ => None
  end.

(** ** The charm *)

Module FastAPIDemoCharm.

Definition PEER_NAME : string := "fastapi-peer".
Definition pebble_service_name : string := "fastapi-service".

(** The body of the [for] loop of [fetch_postgres_relation_data], over
    [relations.values()], followed by the statements after the loop. *)
Fixpoint fetch_postgres_loop (values : list (gmap string string))
    : Handler (gmap string string) :=
  match values with
  | [] =>
      set_status (WaitingStatus "Waiting for database relation");;
      raise (SystemExit 0)
  | data :: rest =>
      if bool_decide (dom data = ∅) then fetch_postgres_loop rest
      else
        (* the log call evaluates data["endpoints"] before the split does *)
        _ ← getitem data "endpoints";
        endpoints ← getitem data "endpoints";
        '(host, port) ← unpack2 (split ":"%char endpoints);
        username ← getitem data "username";
        password ← getitem data "password";
        mret ({[ "db_host" := host; "db_port" := port;
                 "db_username" := username; "db_password" := password ]}
              : gmap string string)
  end.

Definition fetch_postgres_relation_data : Handler (gmap string string) :=
  relations ← fetch_relation_data;
  fetch_postgres_loop (snd <$> relations).

(** [db_data.get(key, None)] is the lookup [db_data !! key]. *)
Definition app_environment : Handler (gmap string (option string)) :=
  db_data ← fetch_postgres_relation_data;
  mret ({[ "DEMO_SERVER_DB_HOST" := db_data !! "db_host";
           "DEMO_SERVER_DB_PORT" := db_data !! "db_port";
           "DEMO_SERVER_DB_USER" := db_data !! "db_username";
           "DEMO_SERVER_DB_PASSWORD" := db_data !! "db_password" ]}
        : gmap string (option string)).

Definition _pebble_layer : Handler Layer :=
  port ← config_get_server_port;
  let command :=
    join " " ["uvicorn"; "api_demo_server.app:app"; "--host=0.0.0.0";
              "--port=" +:+ str_of_int port] in
  env ← app_environment;
  mret {| summary := "FastAPI demo service";
          description := "pebble config layer for FastAPI demo server";
          services :=
            {[ pebble_service_name :=
                 {| override := "replace";
                    svc_summary := "fastapi demo";
                    command := command;
                    startup := "enabled";
                    environment := env |} ]} |}.

Definition _request_version : Handler string :=
  port ← config_get_server_port;
  answer ← read (fun w => version_endpoint w port);
  match answer with
  | Some v => mret v
  | None => raise RequestException
  end.

Definition version : Handler string :=
  connected ← can_connect;
  found ← (if connected : bool
           then svcs ← get_services pebble_service_name;
                mret (negb (bool_decide (dom svcs = ∅)))
           else mret false : Handler bool);
  if found : bool
  then try_except_Exception _request_version (fun _ => mret "")
  else mret "".

Definition _update_layer_and_restart : Handler unit :=
  set_status (MaintenanceStatus "Assembling pod spec");;
  connected ← can_connect;
  if connected : bool then
    layer ← _pebble_layer;
    let new_layer := Layer_to_dict layer in
    plan ← get_plan;
    let services := default ∅ (doc_services (Plan_to_dict plan)) in
    new_services ← (match doc_services new_layer with
                    | Some s => mret s
                    | None => raise (KeyError "services")
                    end : Handler (gmap string ServiceDict));
    (if bool_decide (services ≠ new_services) then
       layer' ← _pebble_layer;
       add_layer "fastapi_demo" layer';;
       restart pebble_service_name
     else mret tt : Handler unit);;
    v ← version;
    set_workload_version v;;
    set_status (ActiveStatus "")
  else
    set_status (WaitingStatus "Waiting for Pebble in workload container").

Definition _handle_ports : Handler unit :=
  port ← config_get_server_port;
  set_ports port.

Definition _on_config_changed : Handler unit :=
  port ← config_get_server_port;
  if bool_decide (port = 22) then
    set_status (BlockedStatus "Invalid port number, 22 is reserved for SSH")
  else
    _handle_ports;;
    _update_layer_and_restart.

Definition _on_database_created : Handler unit := _update_layer_and_restart.

Definition _on_database_relation_removed : Handler unit :=
  set_status (WaitingStatus "Waiting for database relation");;
  raise (SystemExit 0).


(** [self.peers]: the peer relation, [None] when it does not exist. *)
Definition peers : Handler (option (gmap string string)) := read peer_app_data.

(** [self.unit.is_leader()] as the orchestrator sees it. *)
Definition is_leader : Handler bool := read unit_is_leader.

(** [self.peers.data[self.app][key] = json.dumps(data)]: the right-hand
    side is evaluated before the target; the assignment to the application
    data bag is refused with [RelationDataAccessError] on a unit that is not
    the leader. *)
Definition set_peer_data (key : string) (data : list (string * Z)) : Handler unit :=
  let value := json_dumps data in
  relation ← peers;
  match relation with
  | None => raise AttributeError
  | Some bag =>
      leader ← is_leader;
      if leader : bool
      then modify (with_peer_app_data (Some (<[key := value]> bag)))
      else raise RelationDataAccessError
  end.

Definition get_peer_data (key : string) : Handler (gmap string Z) :=
  relation ← peers;
  match relation with
  | None => mret ∅
  | Some bag =>
      let data := default "" (bag !! key) in
      match data with
      | EmptyString => mret ∅
      | _ => match json_loads data with
             | Some d => mret d
             | None => raise OutsideModel
             end
      end
  end.

Definition _count : Handler unit :=
  unit_stats ← get_peer_data "unit_stats";
  let counter := default 0 (unit_stats !! "started_counter") in
  set_peer_data "unit_stats" [("started_counter", counter + 1)].

(** [event.params] of the action event, then the [try] statement: the
    [except SystemExit] clause binds [output] and re-raises, the [finally]
    clause reads [output], which no clause has bound when another exception
    left the [try] body. *)
Definition _on_get_db_info_action (params : gmap string bool) : Handler unit :=
  show_password ← getitem params "show-password";
  tried ← attempt fetch_postgres_relation_data;
  let '(output, pending) :=
    match tried with
    | Returns db_data =>
        let output : gmap string (option string) :=
          {[ "db-host" := db_data !! "db_host";
             "db-port" := db_data !! "db_port" ]} in
        (Some (if show_password : bool
               then <[ "db-password" := db_data !! "db_password" ]>
                      (<[ "db-username" := db_data !! "db_username" ]> output)
               else output),
         None)
    | Raises (SystemExit code) =>
        (Some ({[ "result" := Some "No database connected" ]}
               : gmap string (option string)),
         Some (SystemExit code))
    | Raises e => (None, Some e)
    end in
  match output with
  | Some o => set_results o
  | None => raise (UnboundLocalError "output")
  end;;
  match pending with
  | Some e => raise e
  | None => mret tt
  end.

(** The notifications the charm observes, and the handler [__init__]
    registers for each. *)
Inductive event : Type :=
  | demo_server_pebble_ready
  | config_changed
  | database_created
  | endpoints_changed
  | database_relation_broken
  | start
  | get_db_info_action (params : gmap string bool).

Definition dispatch (e : event) : Handler unit :=
  match e with
  | demo_server_pebble_ready => _update_layer_and_restart
  | config_changed => _on_config_changed
  | database_created => _on_database_created
  | endpoints_changed => _on_database_created
  | database_relation_broken => _on_database_relation_removed
  | start => _count
  | get_db_info_action params => _on_get_db_info_action params
  end.

End FastAPIDemoCharm.

Import FastAPIDemoCharm.

(** ** States and documents used in the statements *)

(** The relation-data fetch succeeds with [d]. *)
Definition database_connected (w : World) (d : gmap string string) : Prop :=
  fetch_postgres_relation_data w = (Returns d, w).

(** No database relation carries data (in particular when there is none). *)
Definition no_database_data (w : World) : Prop :=
  Forall (fun r : Z * gmap string string => r.2 = ∅) (database_relations w).

(** The layer [_pebble_layer] builds from a port and connection data. *)
Definition layer_of (port : Z) (d : gmap string string) : Layer :=
  {| summary := "FastAPI demo service";
     description := "pebble config layer for FastAPI demo server";
     services :=
       {[ "fastapi-service" :=
            {| override := "replace";
               svc_summary := "fastapi demo";
               command := "uvicorn api_demo_server.app:app --host=0.0.0.0 --port="
                          +:+ str_of_int port;
               startup := "enabled";
               environment :=
                 {[ "DEMO_SERVER_DB_HOST" := d !! "db_host";
                    "DEMO_SERVER_DB_PORT" := d !! "db_port";
                    "DEMO_SERVER_DB_USER" := d !! "db_username";
                    "DEMO_SERVER_DB_PASSWORD" := d !! "db_password" ]} |} ]} |}.

(** The two sides of the comparison in [_update_layer_and_restart]. *)
Definition current_services (w : World) : gmap string ServiceDict :=
  default ∅ (doc_services (Plan_to_dict (plan_services w))).

Definition new_services (w : World) (d : gmap string string) : gmap string ServiceDict :=
  Service_to_dict <$> services (layer_of (config_server_port w) d).

(** A unit whose workload has just come up: default port, no database
    relation, no peer relation, empty plan. *)
Definition fresh_unit : World :=
  {| config_server_port := 8000;
     database_relations := [];
     peer_app_data := None;
     unit_is_leader := true;
     supervisor_reachable := true;
     plan_services := ∅;
     version_endpoint := fun _ => None;
     unit_status := MaintenanceStatus "";
     opened_ports := ∅;
     added_layers := [];
     restarted := [];
     workload_versions := [];
     action_results := [] |}.

Definition unreachable_unit : World :=
  {| config_server_port := 8000;
     database_relations := [];
     peer_app_data := None;
     unit_is_leader := true;
     supervisor_reachable := false;
     plan_services := ∅;
     version_endpoint := fun _ => None;
     unit_status := MaintenanceStatus "";
     opened_ports := ∅;
     added_layers := [];
     restarted := [];
     workload_versions := [];
     action_results := [] |}.

Definition ssh_port_unit : World :=
  {| config_server_port := 22;
     database_relations := [];
     peer_app_data := None;
     unit_is_leader := true;
     supervisor_reachable := true;
     plan_services := ∅;
     version_endpoint := fun _ => None;
     unit_status := ActiveStatus "";
     opened_ports := {[ 8000 ]};
     added_layers := [];
     restarted := [];
     workload_versions := [];
     action_results := [] |}.

Definition postgres_data : gmap string string :=
  {[ "endpoints" := "10.1.2.3:5432"; "username" := "demo"; "password" := "s3cret" ]}.

Definition postgres_db_data : gmap string string :=
  {[ "db_host" := "10.1.2.3"; "db_port" := "5432";
     "db_username" := "demo"; "db_password" := "s3cret" ]}.

(** A unit related to a database (relation 7 has data, relation 4 not yet). *)
Definition database_unit : World :=
  {| config_server_port := 8000;
     database_relations := [(4, ∅); (7, postgres_data)];
     peer_app_data := Some ∅;
     unit_is_leader := true;
     supervisor_reachable := true;
     plan_services := ∅;
     version_endpoint := fun _ => Some "1.0.0";
     unit_status := MaintenanceStatus "";
     opened_ports := ∅;
     added_layers := [];
     restarted := [];
     workload_versions := [];
     action_results := [] |}.

(** A related unit whose configured port was changed to 1234 while port
    8000 is still the opened one. *)
Definition custom_port_unit : World :=
  {| config_server_port := 1234;
     database_relations := [(7, postgres_data)];
     peer_app_data := Some ∅;
     unit_is_leader := true;
     supervisor_reachable := true;
     plan_services := ∅;
     version_endpoint := fun _ => Some "1.0.0";
     unit_status := ActiveStatus "";
     opened_ports := {[ 8000 ]};
     added_layers := [];
     restarted := [];
     workload_versions := [];
     action_results := [] |}.

(** A unit whose database relation announces two endpoints at once. *)
Definition two_endpoints_unit : World :=
  {| config_server_port := 8000;
     database_relations :=
       [(7, {[ "endpoints" := "db-0:5432,db-1:5432"; "username" := "demo";
               "password" := "s3cret" ]})];
     peer_app_data := Some ∅;
     unit_is_leader := true;
     supervisor_reachable := true;
     plan_services := ∅;
     version_endpoint := fun _ => None;
     unit_status := ActiveStatus "";
     opened_ports := {[ 8000 ]};
     added_layers := [];
     restarted := [];
     workload_versions := [];
     action_results := [] |}.

(** A unit that was reconciled for port 8000 and whose configured port is
    now 1234. *)
Definition port_changed_unit : World :=
  {| config_server_port := 1234;
     database_relations := [(7, postgres_data)];
     peer_app_data := Some ∅;
     unit_is_leader := true;
     supervisor_reachable := true;
     plan_services := services (layer_of 8000 postgres_db_data);
     version_endpoint := fun _ => Some "1.0.0";
     unit_status := ActiveStatus "";
     opened_ports := {[ 8000 ]};
     added_layers := [("fastapi_demo", layer_of 8000 postgres_db_data)];
     restarted := ["fastapi-service"];
     workload_versions := ["1.0.0"];
     action_results := [] |}.

(** A unit with the peer relation that is not the leader. *)
Definition follower_unit : World :=
  {| config_server_port := 8000;
     database_relations := [(7, postgres_data)];
     peer_app_data := Some {[ "unit_stats" := json_dumps [("started_counter", 2)] ]};
     unit_is_leader := false;
     supervisor_reachable := true;
     plan_services := ∅;
     version_endpoint := fun _ => Some "1.0.0";
     unit_status := ActiveStatus "";
     opened_ports := {[ 8000 ]};
     added_layers := [];
     restarted := [];
     workload_versions := [];
     action_results := [] |}.

(** A unit configured with a port number beyond the last port, while the
    supervisor is unreachable. *)
Definition out_of_range_unit : World :=
  {| config_server_port := 65536;
     database_relations := [];
     peer_app_data := None;
     unit_is_leader := true;
     supervisor_reachable := false;
     plan_services := ∅;
     version_endpoint := fun _ => None;
     unit_status := MaintenanceStatus "";
     opened_ports := ∅;
     added_layers := [];
     restarted := [];
     workload_versions := [];
     action_results := [] |}.

(** A related unit whose plan already holds a service of the workload
    image, under another name. *)
Definition foreign_service_unit : World :=
  {| config_server_port := 8000;
     database_relations := [(7, postgres_data)];
     peer_app_data := Some ∅;
     unit_is_leader := true;
     supervisor_reachable := true;
     plan_services :=
       {[ "metrics-agent" :=
            {| override := "replace"; svc_summary := "metrics";
               command := "agent --listen=9100"; startup := "enabled";
               environment := ∅ |} ]};
     version_endpoint := fun _ => Some "1.0.0";
     unit_status := MaintenanceStatus "";
     opened_ports := ∅;
     added_layers := [];
     restarted := [];
     workload_versions := [];
     action_results := [] |}.

(** The same unit after its first reconciliation. *)
Definition reconciled_unit : World := (_update_layer_and_restart database_unit).2.

(** A unit whose peer data bag records [n] starts. *)
Definition counted_unit (n : Z) : World :=
  {| config_server_port := 8000;
     database_relations := [];
     peer_app_data := Some {[ "unit_stats" := json_dumps [("started_counter", n)] ]};
     unit_is_leader := true;
     supervisor_reachable := true;
     plan_services := ∅;
     version_endpoint := fun _ => None;
     unit_status := ActiveStatus "";
     opened_ports := ∅;
     added_layers := [];
     restarted := [];
     workload_versions := [];
     action_results := [] |}.

(** [keeps f m]: running [m] never changes the observation [f] of the state. *)
Definition keeps {A X : Type} (f : World -> X) (m : Handler A) : Prop :=
  forall w, f (m w).2 = f w.

(** The state a reconciliation leaves when it applies [layer] and reports
    version [v], and when it finds nothing to apply. *)
Definition after_apply (w : World) (layer : Layer) (v : string) : World :=
  with_unit_status (ActiveStatus "")
    (with_workload_versions (workload_versions w ++ [v])
      (with_restarted (restarted w ++ ["fastapi-service"])
        (with_added_layers (added_layers w ++ [("fastapi_demo", layer)])
          (with_plan_services (services layer ∪ plan_services w) w)))).

Definition after_noop (w : World) (v : string) : World :=
  with_unit_status (ActiveStatus "")
    (with_workload_versions (workload_versions w ++ [v]) w).

(** Texts without a colon: a host name or a port number of an endpoint. *)
Fixpoint no_colon (s : string) : bool :=
  match s with
  | EmptyString => true
  | String c s' => negb (Ascii.eqb c ":"%char) && no_colon s'
  end.

(** Texts made of digits and minus signs only. *)
Fixpoint all_numeric (s : string) : bool :=
  match s with
  | EmptyString => true
  | String c s' => (is_digit c || Ascii.eqb c "-"%char) && all_numeric s'
  end.

(** How often a character occurs in a text. *)
Fixpoint count_char (c : ascii) (s : string) : nat :=
  match s with
  | EmptyString => O
  | String a s' => (if Ascii.eqb a c then 1 else 0) + count_char c s'
  end%nat.

(** Texts that a JSON string literal holds as they are. *)
Fixpoint all_plain (s : string) : bool :=
  match s with
  | EmptyString => true
  | String c s' => is_plain c && all_plain s'
  end.

(** The same notification delivered [n] times in a row. *)
Fixpoint repeatedly (n : nat) (h : Handler unit) : Handler unit :=
  match n with
  | O => mret tt
  | S n' => h;; repeatedly n' h
  end.

(** What the workload's version endpoint yields for the unit: its answer on
    the configured port when the supervisor is reachable and the service is
    in the plan, the empty text otherwise. *)
Definition endpoint_version (w : World) : string :=
  default "" (version_endpoint w (config_server_port w)).

(** One member of the object [json.dumps] writes. *)
Definition json_member (kv : string * Z) : string :=
  String dquote (kv.1 +:+ String dquote (": " +:+ str_of_int kv.2)).

(** ** Running handlers *)

Lemma bind_returns {A B : Type} (m : Handler A) (f : A -> Handler B) w a w' :
  m w = (Returns a, w') -> (m ≫= f) w = f a w'.
Proof. intros H. unfold mbind, Handler_bind. by rewrite H. Qed.

Lemma bind_raises {A B : Type} (m : Handler A) (f : A -> Handler B) w e w' :
  m w = (Raises e, w') -> (m ≫= f) w = (Raises e, w').
Proof. intros H. unfold mbind, Handler_bind. by rewrite H. Qed.

(** Unfolds the monad and the collaborators' operations. *)
Ltac run :=
  unfold set_status, set_ports, set_workload_version, can_connect, get_plan,
    add_layer, restart, get_services, fetch_relation_data, set_results,
    config_get_server_port, peers, is_leader, attempt, getitem, raise, read,
    modify,
    try_except_Exception, mbind, mret, Handler_bind, Handler_ret in *;
  cbn [fst snd] in *.

(** ** What a handler leaves untouched *)

Lemma keeps_ret {A X : Type} (f : World -> X) (a : A) : keeps f (mret a : Handler A).
Proof. by intros w. Qed.

Lemma keeps_raise {A X : Type} (f : World -> X) e : keeps f (raise e : Handler A).
Proof. by intros w. Qed.

Lemma keeps_read {A X : Type} (f : World -> X) (g : World -> A) : keeps f (read g).
Proof. by intros w. Qed.

Lemma keeps_bind {A B X : Type} (f : World -> X) (m : Handler A) (k : A -> Handler B) :
  keeps f m -> (forall a, keeps f (k a)) -> keeps f (m ≫= k).
Proof.
  intros Hm Hk w. unfold mbind, Handler_bind.
  specialize (Hm w). destruct (m w) as [[a|e] w']; cbn in *; [|done].
  by rewrite Hk.
Qed.

Lemma keeps_modify {X : Type} (f : World -> X) (g : World -> World) :
  (forall w, f (g w) = f w) -> keeps f (modify g).
Proof. intros H w. apply H. Qed.

Lemma keeps_getitem {V X : Type} (f : World -> X) (d : gmap string V) key :
  keeps f (getitem d key).
Proof. unfold getitem. destruct (d !! key); [apply keeps_ret | apply keeps_raise]. Qed.

Lemma keeps_unpack2 {X : Type} (f : World -> X) parts : keeps f (unpack2 parts).
Proof.
  unfold unpack2. destruct parts as [|a [|b [|c parts]]];
    (apply keeps_ret || apply keeps_raise).
Qed.

Lemma keeps_try_except {A X : Type} (f : World -> X) (m : Handler A) h :
  keeps f m -> (forall e, keeps f (h e)) -> keeps f (try_except_Exception m h).
Proof.
  intros Hm Hh w. unfold try_except_Exception.
  specialize (Hm w). destruct (m w) as [[a|e] w']; cbn in *; [done|].
  destruct (is_Exception e); cbn; [by rewrite Hh | done].
Qed.

Create HintDb frame.
#[local] Hint Resolve keeps_ret keeps_raise keeps_read keeps_getitem keeps_unpack2 : frame.

Ltac frame :=
  repeat first
    [ assumption
    | match goal with
      | |- keeps _ (modify _) => apply keeps_modify; intros ?
      | |- keeps _ (try_except_Exception _ _) => apply keeps_try_except; [|intros ?]
      | |- keeps _ (if ?b then _ else _) => destruct b
      | |- keeps _ (match ?x with _ => _ end) => destruct x
      | |- keeps _ (_ ≫= _) => apply keeps_bind; [|intros ?]
      end
    | progress eauto with frame ].

Lemma fetch_postgres_loop_keeps {X : Type} (f : World -> X) vs :
  (forall st w, f (with_unit_status st w) = f w) ->
  keeps f (fetch_postgres_loop vs).
Proof.
  intros Hf. induction vs as [|data rest IH]; cbn [fetch_postgres_loop].
  - unfold set_status. frame.
  - case_bool_decide; [done|]. frame.
Qed.

Section Frame.
Context {X : Type} (f : World -> X).
Hypothesis f_status : forall x w, f (with_unit_status x w) = f w.
Hypothesis f_plan : forall x w, f (with_plan_services x w) = f w.
Hypothesis f_layers : forall x w, f (with_added_layers x w) = f w.
Hypothesis f_restarted : forall x w, f (with_restarted x w) = f w.
Hypothesis f_versions : forall x w, f (with_workload_versions x w) = f w.

Lemma fetch_postgres_relation_data_keeps : keeps f fetch_postgres_relation_data.
Proof.
  unfold fetch_postgres_relation_data, fetch_relation_data.
  apply keeps_bind; [apply keeps_read|intros rs].
  by apply fetch_postgres_loop_keeps.
Qed.

Lemma _pebble_layer_keeps : keeps f _pebble_layer.
Proof.
  pose proof fetch_postgres_relation_data_keeps.
  unfold _pebble_layer, app_environment, config_get_server_port. frame.
Qed.

Lemma version_keeps : keeps f version.
Proof.
  unfold version, _request_version, can_connect, get_services,
    config_get_server_port.
  frame.
Qed.

Lemma _update_layer_and_restart_keeps : keeps f _update_layer_and_restart.
Proof.
  pose proof _pebble_layer_keeps. pose proof version_keeps.
  unfold _update_layer_and_restart, set_status, can_connect, get_plan,
    add_layer, restart, set_workload_version.
  frame; by rewrite ?f_layers, ?f_plan, ?f_restarted, ?f_versions, ?f_status.
Qed.
End Frame.

(** ** Reconciliation and configuration, case by case *)

Lemma reconcile_unreachable (w : World) :
  supervisor_reachable w = false ->
  _update_layer_and_restart w =
    (Returns tt,
     with_unit_status (WaitingStatus "Waiting for Pebble in workload container") w).
Proof.
  intros H. unfold _update_layer_and_restart. run. cbn. by rewrite H.
Qed.

Lemma config_changed_22 (w : World) :
  config_server_port w = 22 ->
  _on_config_changed w =
    (Returns tt,
     with_unit_status (BlockedStatus "Invalid port number, 22 is reserved for SSH") w).
Proof.
  intros H. unfold _on_config_changed. run. by rewrite H.
Qed.

Lemma config_changed_other_port (w : World) :
  config_server_port w ≠ 22 ->
  1 <= config_server_port w <= 65535 ->
  _on_config_changed w =
    _update_layer_and_restart (with_opened_ports {[ config_server_port w ]} w).
Proof.
  intros H Hrange. unfold _on_config_changed, _handle_ports, set_ports. run.
  by rewrite bool_decide_false, bool_decide_true.
Qed.

(** ** The relation-data fetch *)

Lemma fetch_postgres_loop_returns vs w d w' :
  fetch_postgres_loop vs w = (Returns d, w') ->
  w' = w /\ forall w2, fetch_postgres_loop vs w2 = (Returns d, w2).
Proof.
  induction vs as [|data rest IH]; cbn [fetch_postgres_loop].
  - run. discriminate.
  - case_bool_decide; [exact IH|].
    unfold unpack2. run.
    destruct (data !! "endpoints") as [ep|]; [|discriminate].
    destruct (split ":" ep) as [|h [|p [|x parts]]]; try discriminate.
    destruct (data !! "username") as [u|]; [|discriminate].
    destruct (data !! "password") as [pw|]; [|discriminate].
    intros [= <- <-]. split; [done|]. intros w2. reflexivity.
Qed.

Lemma fetch_connected_anywhere w d w2 :
  database_connected w d ->
  database_relations w2 = database_relations w ->
  fetch_postgres_relation_data w2 = (Returns d, w2).
Proof.
  unfold database_connected, fetch_postgres_relation_data. run.
  intros H Hrel. apply fetch_postgres_loop_returns in H as [_ H].
  rewrite Hrel. apply H.
Qed.

Lemma fetch_postgres_loop_no_data vs w :
  Forall (fun d : gmap string string => d = ∅) vs ->
  fetch_postgres_loop vs w =
    (Raises (SystemExit 0),
     with_unit_status (WaitingStatus "Waiting for database relation") w).
Proof.
  induction 1 as [|data rest -> _ IH]; cbn [fetch_postgres_loop].
  - by run.
  - by rewrite dom_empty_L, bool_decide_true.
Qed.

Lemma fetch_no_database_data w :
  no_database_data w ->
  fetch_postgres_relation_data w =
    (Raises (SystemExit 0),
     with_unit_status (WaitingStatus "Waiting for database relation") w).
Proof.
  intros H. unfold fetch_postgres_relation_data. run.
  apply fetch_postgres_loop_no_data.
  apply Forall_fmap. eapply Forall_impl; [exact H|]. by intros [id data].
Qed.

Lemma split_no_colon s : no_colon s = true -> split ":" s = [s].
Proof.
  induction s as [|c s IH]; [done|]. cbn [no_colon split].
  intros [Hc Hs]%andb_prop. apply negb_true_iff in Hc. rewrite Hc.
  by rewrite (IH Hs).
Qed.

Lemma split_host_port h p :
  no_colon h = true -> no_colon p = true ->
  split ":" (h +:+ String ":" p) = [h; p].
Proof.
  intros Hh Hp. induction h as [|c h IH]; simpl.
  - by rewrite split_no_colon.
  - cbn [no_colon] in Hh. apply andb_prop in Hh as [Hc Hh].
    apply negb_true_iff in Hc. rewrite Hc. by rewrite (IH Hh).
Qed.

(** The fetch succeeds on the first relation that carries data, when its
    endpoint is one host and one port and the credentials are there. *)
Lemma database_connected_intro w empties id data rest h p u pw :
  database_relations w = empties ++ (id, data) :: rest ->
  Forall (fun r : Z * gmap string string => r.2 = ∅) empties ->
  data !! "endpoints" = Some (h +:+ String ":" p) ->
  no_colon h = true -> no_colon p = true ->
  data !! "username" = Some u ->
  data !! "password" = Some pw ->
  database_connected w
    {[ "db_host" := h; "db_port" := p; "db_username" := u; "db_password" := pw ]}.
Proof.
  intros Hrel Hempty Hep Hh Hp Hu Hpw.
  unfold database_connected, fetch_postgres_relation_data. run.
  rewrite Hrel, fmap_app, fmap_cons. cbn [snd]. clear Hrel.
  induction Hempty as [|[id0 d0] empties Hd0 _ IH]; cbn [fmap list_fmap app].
  - cbn [fetch_postgres_loop]. rewrite bool_decide_false.
    + unfold getitem, unpack2. rewrite Hep, Hu, Hpw. run.
      by rewrite split_host_port.
    + intros Hdom. apply dom_empty_inv_L in Hdom. by rewrite Hdom in Hep.
  - cbn [snd fetch_postgres_loop] in *. subst d0.
    by rewrite dom_empty_L, bool_decide_true.
Qed.

(** A returned mapping always has the four connection keys. *)
Lemma fetch_postgres_loop_keys vs w d w' :
  fetch_postgres_loop vs w = (Returns d, w') ->
  dom d = {[ "db_host"; "db_port"; "db_username"; "db_password" ]}.
Proof.
  induction vs as [|data rest IH]; cbn [fetch_postgres_loop].
  - run. discriminate.
  - case_bool_decide; [exact IH|].
    unfold unpack2. run.
    destruct (data !! "endpoints") as [ep|]; [|discriminate].
    destruct (split ":" ep) as [|h [|p [|x parts]]]; try discriminate.
    destruct (data !! "username") as [u|]; [|discriminate].
    destruct (data !! "password") as [pw|]; [|discriminate].
    intros [= <- <-]. rewrite !dom_insert_L, dom_singleton_L. set_solver.
Qed.

(** ** The service definition *)

Lemma truthy_map_singleton {V : Type} (k : string) (v : V) :
  truthy_map ({[ k := v ]} : gmap string V) = Some {[ k := v ]}.
Proof.
  unfold truthy_map. rewrite dom_singleton_L, bool_decide_false; [done|].
  set_solver.
Qed.

Lemma _pebble_layer_connected w d w2 :
  database_connected w d ->
  database_relations w2 = database_relations w ->
  _pebble_layer w2 = (Returns (layer_of (config_server_port w2) d), w2).
Proof.
  intros Hd Hrel. unfold _pebble_layer, app_environment.
  unfold config_get_server_port, read at 1.
  unfold mbind at 1, Handler_bind at 1.
  erewrite bind_returns; [|erewrite bind_returns;
    [reflexivity|by eapply fetch_connected_anywhere]].
  reflexivity.
Qed.

Lemma new_services_singleton w d :
  new_services w d =
    {[ "fastapi-service" :=
         Service_to_dict
           {| override := "replace";
              svc_summary := "fastapi demo";
              command := "uvicorn api_demo_server.app:app --host=0.0.0.0 --port="
                         +:+ str_of_int (config_server_port w);
              startup := "enabled";
              environment :=
                {[ "DEMO_SERVER_DB_HOST" := d !! "db_host";
                   "DEMO_SERVER_DB_PORT" := d !! "db_port";
                   "DEMO_SERVER_DB_USER" := d !! "db_username";
                   "DEMO_SERVER_DB_PASSWORD" := d !! "db_password" ]} |} ]}.
Proof. unfold new_services, layer_of. cbn [services]. apply map_fmap_singleton. Qed.

Lemma layer_of_doc_services port d w :
  config_server_port w = port ->
  doc_services (Layer_to_dict (layer_of port d)) = Some (new_services w d).
Proof.
  intros <-. unfold Layer_to_dict. cbn [doc_services].
  fold (new_services w d). rewrite new_services_singleton.
  apply truthy_map_singleton.
Qed.

Lemma version_returns w : exists v, version w = (Returns v, w).
Proof.
  unfold version, _request_version. run.
  destruct (supervisor_reachable w); [|by eexists].
  destruct (negb _); [|by eexists].
  destruct (version_endpoint w (config_server_port w)); cbn; by eexists.
Qed.

Lemma reconcile_connected w d :
  supervisor_reachable w = true ->
  database_connected w d ->
  exists v,
    _update_layer_and_restart w =
      (Returns tt,
       if bool_decide (current_services w ≠ new_services w d)
       then after_apply w (layer_of (config_server_port w) d) v
       else after_noop w v).
Proof.
  intros Hreach Hdb.
  unfold _update_layer_and_restart.
  unfold set_status, can_connect, get_plan, read, modify.
  unfold mbind at 1 2, Handler_bind at 1 2. cbn [supervisor_reachable with_unit_status].
  rewrite Hreach.
  set (w1 := with_unit_status _ w).
  rewrite (bind_returns _ _ w1 _ w1 (_pebble_layer_connected w d w1 Hdb eq_refl)).
  unfold mbind at 1 2, Handler_bind at 1 2.
  rewrite (layer_of_doc_services _ d w1 eq_refl).
  change (new_services w1 d) with (new_services w d).
  change (config_server_port w1) with (config_server_port w).
  change (default ∅ (doc_services (Plan_to_dict (plan_services w1)))) with (current_services w).
  unfold mret at 1, Handler_ret at 1.
  case_bool_decide as Hne.
  - erewrite bind_returns; last first.
    { erewrite bind_returns; [|by apply (_pebble_layer_connected w d w1)].
      unfold add_layer, restart, modify, mbind, Handler_bind. reflexivity. }
    match goal with |- context [ version ≫= _ ] => idtac end.
    match goal with |- ex (fun v => (_ ≫= _) ?w2 = _) =>
      destruct (version_returns w2) as [v Hv]; exists v;
      rewrite (bind_returns _ _ _ _ _ Hv) end.
    reflexivity.
  - unfold mret at 1, Handler_ret at 1, mbind at 1, Handler_bind at 1.
    destruct (version_returns w1) as [v Hv]. exists v.
    rewrite (bind_returns _ _ _ _ _ Hv). reflexivity.
Qed.

(** ** json.loads reads back what json.dumps wrote *)

Lemma all_numeric_uint u : all_numeric (NilEmpty.string_of_uint u) = true.
Proof. induction u; cbn; auto. Qed.

Lemma all_numeric_str_of_int n : all_numeric (str_of_int n) = true.
Proof.
  unfold str_of_int, NilZero.string_of_int, NilZero.string_of_uint.
  destruct (Z.to_int n) as [u|u]; destruct u;
    cbn [all_numeric NilEmpty.string_of_uint];
    rewrite ?all_numeric_uint; reflexivity.
Qed.

Lemma scan_number_app tok c rest :
  all_numeric tok = true ->
  is_digit c || Ascii.eqb c "-"%char = false ->
  scan_number (tok +:+ String c rest) = (tok, String c rest).
Proof.
  intros Htok Hc.
  induction tok as [|a tok IH]; simpl in *.
  - by rewrite Hc.
  - apply andb_prop in Htok as [-> Htok]. by rewrite IH.
Qed.

Lemma int_of_string_str_of_int n :
  NilZero.int_of_string (str_of_int n) = Some (Z.to_int n).
Proof.
  unfold str_of_int. apply NilZero.isi.
  - destruct n; cbn; [discriminate| |discriminate].
    intros [= H]. by apply DecimalPos.Unsigned.to_uint_nonnil in H.
  - destruct n; cbn; [discriminate|discriminate|].
    intros [= H]. by apply DecimalPos.Unsigned.to_uint_nonnil in H.
Qed.

Lemma norm_to_int n : Decimal.norm (Z.to_int n) = Z.to_int n.
Proof. by rewrite <- DecimalZ.to_of, DecimalZ.of_to. Qed.

Lemma parse_int_str_of_int n rest :
  parse_int (str_of_int n +:+ String "}" rest) = Some (n, String "}" rest).
Proof.
  unfold parse_int.
  rewrite scan_number_app by (apply all_numeric_str_of_int || reflexivity).
  rewrite int_of_string_str_of_int, norm_to_int.
  destruct (Decimal.int_eq_dec _ _); [|done].
  cbn. by rewrite DecimalZ.of_to.
Qed.

Lemma str_of_int_nonempty n : str_of_int n <> "".
Proof.
  intros H. pose proof (int_of_string_str_of_int n) as Hp.
  rewrite H in Hp. discriminate.
Qed.

Lemma skip_ws_str_of_int n rest :
  skip_ws (str_of_int n +:+ rest) = str_of_int n +:+ rest.
Proof.
  pose proof (all_numeric_str_of_int n) as Hnum.
  pose proof (str_of_int_nonempty n) as Hne.
  destruct (str_of_int n) as [|c tok]; [done|].
  simpl in *. apply andb_prop in Hnum as [Hc _].
  destruct c as [[] [] [] [] [] [] [] []]; try discriminate; reflexivity.
Qed.

(** The text [json.dumps] writes for the counter. *)
Lemma json_dumps_counter n :
  json_dumps [("started_counter", n)] =
    String "{" (String dquote ("started_counter" +:+
      String dquote (String ":" (String " " (str_of_int n +:+ "}"))))).
Proof. reflexivity. Qed.

Lemma json_loads_dumps_counter n :
  json_loads (json_dumps [("started_counter", n)]) =
    Some {[ "started_counter" := n ]}.
Proof.
  rewrite json_dumps_counter. unfold json_loads.
  pose proof (skip_ws_str_of_int n "}") as Hws.
  pose proof (parse_int_str_of_int n "") as Hint.
  remember (str_of_int n +:+ "}") as text.
  simpl. rewrite Hws, Hint. reflexivity.
Qed.

Lemma json_dumps_nonempty d : json_dumps d <> "".
Proof. unfold json_dumps. by destruct d. Qed.

(** ** Reconciliation with a reachable supervisor and a connected database *)

Lemma current_services_fmap w :
  current_services w = Service_to_dict <$> plan_services w.
Proof.
  unfold current_services, Plan_to_dict, truthy_map. cbn [doc_services].
  case_bool_decide as Hdom; [|done].
  cbn. symmetry. by apply (dom_empty_inv_L (D := gset string)).
Qed.

Lemma reconcile_apply w d :
  supervisor_reachable w = true ->
  database_connected w d ->
  current_services w ≠ new_services w d ->
  exists v,
    _update_layer_and_restart w =
      (Returns tt, after_apply w (layer_of (config_server_port w) d) v).
Proof.
  intros Hreach Hdb Hne. destruct (reconcile_connected w d Hreach Hdb) as [v Hv].
  exists v. by rewrite Hv, bool_decide_true.
Qed.

Lemma reconcile_noop w d :
  supervisor_reachable w = true ->
  database_connected w d ->
  current_services w = new_services w d ->
  exists v, _update_layer_and_restart w = (Returns tt, after_noop w v).
Proof.
  intros Hreach Hdb Heq. destruct (reconcile_connected w d Hreach Hdb) as [v Hv].
  exists v. rewrite Hv, bool_decide_false; [done|]. by intros Hne.
Qed.

(** The state after a reconciliation is again one with a reachable
    supervisor and the same connection data and configuration. *)
Lemma reconcile_connected_again w d :
  supervisor_reachable w = true ->
  database_connected w d ->
  let w1 := (_update_layer_and_restart w).2 in
  supervisor_reachable w1 = true /\ database_connected w1 d /\
  config_server_port w1 = config_server_port w.
Proof.
  intros Hreach Hdb. destruct (reconcile_connected w d Hreach Hdb) as [v Hv].
  cbn zeta. rewrite Hv. cbn [snd].
  case_bool_decide; (split; [exact Hreach|split; [|reflexivity]]);
    by apply (fetch_connected_anywhere w d).
Qed.

(** When the plan holds no service under another name, the first
    reconciliation leaves exactly the desired services in the plan. *)
Lemma reconcile_settles w d :
  supervisor_reachable w = true ->
  database_connected w d ->
  dom (plan_services w) ⊆ {[ "fastapi-service" ]} ->
  let w1 := (_update_layer_and_restart w).2 in
  current_services w1 = new_services w1 d.
Proof.
  intros Hreach Hdb Hdom. cbn zeta.
  destruct (decide (current_services w = new_services w d)) as [Heq|Hne].
  - destruct (reconcile_noop w d Hreach Hdb Heq) as [v ->]. exact Heq.
  - destruct (reconcile_apply w d Hreach Hdb Hne) as [v ->]. cbn [snd].
    rewrite current_services_fmap. unfold new_services, after_apply.
    cbn [plan_services with_unit_status with_workload_versions with_restarted
         with_added_layers with_plan_services config_server_port].
    f_equal. apply map_eq. intros k.
    rewrite lookup_union. unfold layer_of. cbn [services].
    destruct (decide (k = "fastapi-service")) as [->|Hk].
    + rewrite lookup_singleton_eq. by destruct (plan_services w !! _).
    + rewrite lookup_singleton_ne by done.
      assert (plan_services w !! k = None) as ->; [|done].
      apply not_elem_of_dom. set_solver.
Qed.

Lemma reconcile_without_database (w : World) :
  supervisor_reachable w = true ->
  no_database_data w ->
  _update_layer_and_restart w =
    (Raises (SystemExit 0),
     with_unit_status (WaitingStatus "Waiting for database relation") w).
Proof.
  intros Hreach Hno. unfold _update_layer_and_restart.
  unfold set_status, can_connect, read, modify.
  unfold mbind at 1 2, Handler_bind at 1 2.
  cbn [supervisor_reachable with_unit_status]. rewrite Hreach.
  erewrite bind_raises; [reflexivity|].
  unfold _pebble_layer, app_environment, config_get_server_port, read.
  unfold mbind at 1, Handler_bind at 1.
  erewrite bind_raises; [reflexivity|].
  erewrite bind_raises; [reflexivity|].
  by rewrite fetch_no_database_data.
Qed.

(** ** Worked examples *)

Example split_endpoint : split ":" "10.1.2.3:5432" = ["10.1.2.3"; "5432"].
Proof. reflexivity. Qed.

Example split_two_endpoints :
  split ":" "db-0:5432,db-1:5432" = ["db-0"; "5432,db-1"; "5432"].
Proof. reflexivity. Qed.

Example fetch_database_unit :
  fetch_postgres_relation_data database_unit = (Returns postgres_db_data, database_unit).
Proof. vm_compute. reflexivity. Qed.

(** Two endpoints in one relation: the unpacking of the split fails. *)
Example fetch_two_endpoints :
  fetch_postgres_loop
    [ {[ "endpoints" := "db-0:5432,db-1:5432"; "username" := "demo";
         "password" := "s3cret" ]} ] fresh_unit
  = (Raises ValueError, fresh_unit).
Proof. vm_compute. reflexivity. Qed.

Example first_reconciliation :
  (_update_layer_and_restart database_unit).1 = Returns tt /\
  unit_status reconciled_unit = ActiveStatus "" /\
  restarted reconciled_unit = ["fastapi-service"] /\
  workload_versions reconciled_unit = ["1.0.0"] /\
  command <$> plan_services reconciled_unit !! "fastapi-service" =
    Some "uvicorn api_demo_server.app:app --host=0.0.0.0 --port=8000".
Proof. vm_compute. repeat split. Qed.

Example counter_round_trip :
  json_loads (json_dumps [("started_counter", 41)]) = Some {[ "started_counter" := 41 ]}.
Proof. vm_compute. reflexivity. Qed.

Example loads_empty_object : json_loads "{ }" = Some ∅.
Proof. vm_compute. reflexivity. Qed.

Example loads_outside_fragment : json_loads "[1, 2]" = None.
Proof. reflexivity. Qed.

Example count_twice :
  peer_app_data (_count (_count database_unit).2).2 =
    Some {[ "unit_stats" := json_dumps [("started_counter", 2)] ]}.
Proof. vm_compute. reflexivity. Qed.

(** The diagnostic action on a connected unit, without and with the
    credentials. *)
Example get_db_info_connected :
  action_results
    (_on_get_db_info_action {[ "show-password" := false ]} database_unit).2 =
    [ {[ "db-host" := Some "10.1.2.3"; "db-port" := Some "5432" ]} ] /\
  action_results
    (_on_get_db_info_action {[ "show-password" := true ]} database_unit).2 =
    [ {[ "db-host" := Some "10.1.2.3"; "db-port" := Some "5432";
         "db-username" := Some "demo"; "db-password" := Some "s3cret" ]} ].
Proof. vm_compute. split; reflexivity. Qed.

(** A port beyond the last one is refused when it is to be opened, before
    reconciliation runs. *)
Example config_changed_port_out_of_range :
  dispatch config_changed out_of_range_unit = (Raises ModelError, out_of_range_unit).
Proof. vm_compute. reflexivity. Qed.

(** A unit that is not the leader reads the counter but may not write it. *)
Example follower_reads_but_cannot_count :
  get_peer_data "unit_stats" follower_unit =
    (Returns {[ "started_counter" := 2 ]}, follower_unit) /\
  _count follower_unit = (Raises RelationDataAccessError, follower_unit).
Proof. vm_compute. split; reflexivity. Qed.

(** * The claims *)

(** ** C1 *)

(** C1 as stated fails.  It says that a workload-ready notification with
    port 8000 and no database relation leaves the service definition in
    place (the command for port 8000, the four DEMO_SERVER_DB_* values null)
    and the status Active.  On [fresh_unit] the relation-data fetch sets the
    status to Waiting and raises [SystemExit], so none of this happens. *)
Lemma workload_ready_without_database_counterexample :
  ~ (forall w : World,
       config_server_port w = 8000 ->
       database_relations w = [] ->
       supervisor_reachable w = true ->
       let w' := (dispatch demo_server_pebble_ready w).2 in
       (exists svc,
          plan_services w' !! "fastapi-service" = Some svc /\
          command svc = "uvicorn api_demo_server.app:app --host=0.0.0.0 --port=8000" /\
          environment svc =
            {[ "DEMO_SERVER_DB_HOST" := None; "DEMO_SERVER_DB_PORT" := None;
               "DEMO_SERVER_DB_USER" := None; "DEMO_SERVER_DB_PASSWORD" := None ]}) /\
       unit_status w' = ActiveStatus "").
Proof.
  change (dispatch demo_server_pebble_ready) with _update_layer_and_restart.
  intros H.
  destruct (H fresh_unit eq_refl eq_refl eq_refl) as [_ Hstatus].
  vm_compute in Hstatus. discriminate.
Qed.

(** C1, amended.  For a workload-ready notification with port 8000 and a
    reachable supervisor: when no database relation is present, the
    reconciliation stops with [SystemExit(0)], the status is Waiting
    ("Waiting for database relation") and nothing else has changed (no
    service definition is applied); when the relation-data fetch succeeds
    with connection data [d], the handler returns, the status is Active, the
    plan holds the service with the command for port 8000, and its four
    DEMO_SERVER_DB_* values are the host, port, user name and password of
    [d], all of which are present. *)
Theorem workload_ready_default_port (w : World) :
  config_server_port w = 8000 ->
  supervisor_reachable w = true ->
  (database_relations w = [] ->
   dispatch demo_server_pebble_ready w =
     (Raises (SystemExit 0),
      with_unit_status (WaitingStatus "Waiting for database relation") w)) /\
  (forall d, database_connected w d ->
     let w' := (dispatch demo_server_pebble_ready w).2 in
     (dispatch demo_server_pebble_ready w).1 = Returns tt /\
     unit_status w' = ActiveStatus "" /\
     current_services w' !! "fastapi-service" =
       Some (Service_to_dict
         {| override := "replace";
            svc_summary := "fastapi demo";
            command := "uvicorn api_demo_server.app:app --host=0.0.0.0 --port=8000";
            startup := "enabled";
            environment :=
              {[ "DEMO_SERVER_DB_HOST" := d !! "db_host";
                 "DEMO_SERVER_DB_PORT" := d !! "db_port";
                 "DEMO_SERVER_DB_USER" := d !! "db_username";
                 "DEMO_SERVER_DB_PASSWORD" := d !! "db_password" ]} |}) /\
     dom d = {[ "db_host"; "db_port"; "db_username"; "db_password" ]}).
Proof.
  change (dispatch demo_server_pebble_ready) with _update_layer_and_restart.
  intros Hport Hreach. split.
  - intros Hrel. apply reconcile_without_database; [done|].
    unfold no_database_data. rewrite Hrel. constructor.
  - intros d Hdb. cbn zeta.
    assert (new_services w d !! "fastapi-service" =
            Some (Service_to_dict
              {| override := "replace";
                 svc_summary := "fastapi demo";
                 command := "uvicorn api_demo_server.app:app --host=0.0.0.0 --port=8000";
                 startup := "enabled";
                 environment :=
                   {[ "DEMO_SERVER_DB_HOST" := d !! "db_host";
                      "DEMO_SERVER_DB_PORT" := d !! "db_port";
                      "DEMO_SERVER_DB_USER" := d !! "db_username";
                      "DEMO_SERVER_DB_PASSWORD" := d !! "db_password" ]} |}))
      as Hnew.
    { rewrite new_services_singleton, Hport. apply lookup_singleton_eq. }
    assert (dom d = {[ "db_host"; "db_port"; "db_username"; "db_password" ]})
      as Hkeys.
    { unfold database_connected, fetch_postgres_relation_data in Hdb.
      revert Hdb. run. apply fetch_postgres_loop_keys. }
    destruct (decide (current_services w = new_services w d)) as [Heq|Hne].
    + destruct (reconcile_noop w d Hreach Hdb Heq) as [v ->].
      cbn [fst snd]. repeat split; [|done].
      change (current_services (after_noop w v)) with (current_services w).
      by rewrite Heq.
    + destruct (reconcile_apply w d Hreach Hdb Hne) as [v ->].
      cbn [fst snd]. repeat split; [|done].
      rewrite current_services_fmap. unfold after_apply.
      cbn [plan_services with_unit_status with_workload_versions with_restarted
           with_added_layers with_plan_services].
      rewrite lookup_fmap, lookup_union.
      rewrite <- Hnew, new_services_singleton, lookup_singleton_eq.
      unfold layer_of. cbn [services]. rewrite lookup_singleton_eq.
      by destruct (plan_services w !! _).
Qed.

Lemma workload_ready_default_port_witness :
  config_server_port database_unit = 8000 /\
  supervisor_reachable database_unit = true /\
  database_connected database_unit postgres_db_data /\
  unit_status (dispatch demo_server_pebble_ready database_unit).2 = ActiveStatus "".
Proof.
  split; [reflexivity|]. split; [reflexivity|].
  assert (database_connected database_unit postgres_db_data) as Hdb
    by (vm_compute; reflexivity).
  split; [exact Hdb|].
  exact (proj1 (proj2 (proj2 (workload_ready_default_port database_unit
                                eq_refl eq_refl) postgres_db_data Hdb))).
Defined.

(** ** C2 *)

Lemma get_db_info_no_data (w : World) (params : gmap string bool) (b : bool) :
  params !! "show-password" = Some b ->
  no_database_data w ->
  _on_get_db_info_action params w =
    (Raises (SystemExit 0),
     with_action_results
       (action_results w ++ [{[ "result" := Some "No database connected" ]}])
       (with_unit_status (WaitingStatus "Waiting for database relation") w)).
Proof.
  intros Hparam Hno. unfold _on_get_db_info_action.
  unfold getitem. rewrite Hparam. run.
  rewrite (fetch_no_database_data w Hno). reflexivity.
Qed.

(** C2 as stated fails: the document set by the action is not
    [{"result": "no database connected"}]; the text in the code starts with
    a capital N. *)
Lemma get_db_info_lowercase_counterexample :
  ~ (forall (w : World) (b : bool),
       no_database_data w ->
       let r := dispatch (get_db_info_action {[ "show-password" := b ]}) w in
       action_results r.2 =
         action_results w ++ [{[ "result" := Some "no database connected" ]}] /\
       r.1 = Raises (SystemExit 0)).
Proof.
  cbn [dispatch].
  intros H.
  destruct (H fresh_unit false (Forall_nil_2 _)) as [Hres _].
  apply (f_equal (fun l : list (gmap string (option string)) =>
                    l !! 0%nat ≫= fun m => m !! "result")) in Hres.
  vm_compute in Hres. discriminate.
Qed.

(** C2, amended.  For every invocation of the get-db-info action when no
    database relation carries data, and for both values of show-password,
    the action sets exactly one result, the single document
    [{"result": "No database connected"}], and then re-raises the abort
    condition [SystemExit(0)] to its caller; besides the result, only the
    unit status has changed (Waiting, set by the fetch). *)
Theorem get_db_info_without_database (w : World) (b : bool) :
  no_database_data w ->
  dispatch (get_db_info_action {[ "show-password" := b ]}) w =
    (Raises (SystemExit 0),
     with_action_results
       (action_results w ++ [{[ "result" := Some "No database connected" ]}])
       (with_unit_status (WaitingStatus "Waiting for database relation") w)).
Proof.
  cbn [dispatch].
  intros Hno. apply (get_db_info_no_data w _ b); [|done].
  apply lookup_singleton_eq.
Qed.

Lemma get_db_info_without_database_witness :
  no_database_data fresh_unit /\
  dispatch (get_db_info_action {[ "show-password" := true ]}) fresh_unit =
    (Raises (SystemExit 0),
     with_action_results
       (action_results fresh_unit ++ [{[ "result" := Some "No database connected" ]}])
       (with_unit_status (WaitingStatus "Waiting for database relation") fresh_unit)).
Proof.
  split; [apply Forall_nil_2|].
  apply (get_db_info_without_database fresh_unit true). apply Forall_nil_2.
Defined.

(** ** C3 *)

(** C3 as stated fails.  On [foreign_service_unit], whose plan holds a
    service under another name, the first reconciliation applies the
    definition and the second, computing the same definition, applies it
    and restarts the managed process again: the plan's services never equal
    the computed ones. *)
Lemma unchanged_definition_restarted_twice_counterexample :
  ~ (forall (w : World) (d : gmap string string),
       supervisor_reachable w = true ->
       database_connected w d ->
       current_services w ≠ new_services w d ->
       let w1 := (_update_layer_and_restart w).2 in
       let w2 := (_update_layer_and_restart w1).2 in
       restarted w2 = restarted w ++ ["fastapi-service"]).
Proof.
  intros H.
  assert (database_connected foreign_service_unit postgres_db_data) as Hdb
    by (vm_compute; reflexivity).
  assert (current_services foreign_service_unit ≠
          new_services foreign_service_unit postgres_db_data) as Hne.
  { intros Heq.
    apply (f_equal (fun m : gmap string ServiceDict => m !! "metrics-agent")) in Heq.
    vm_compute in Heq. discriminate. }
  specialize (H foreign_service_unit postgres_db_data eq_refl Hdb Hne).
  vm_compute in H. discriminate.
Qed.

(** C3, amended.  With a reachable supervisor and connected database, and a
    plan that holds no service under another name than "fastapi-service",
    let a first and then a second reconciliation run.  The definition
    computed by the second equals the one in the plan, the second
    reconciliation restarts nothing and adds no layer, and when the first
    one found a difference and applied the definition, the two together
    have restarted the managed process exactly once. *)
Theorem unchanged_definition_restarts_once (w : World) (d : gmap string string) :
  supervisor_reachable w = true ->
  database_connected w d ->
  dom (plan_services w) ⊆ {[ "fastapi-service" ]} ->
  let w1 := (_update_layer_and_restart w).2 in
  let w2 := (_update_layer_and_restart w1).2 in
  current_services w1 = new_services w1 d /\
  restarted w2 = restarted w1 /\
  added_layers w2 = added_layers w1 /\
  (current_services w ≠ new_services w d ->
   restarted w2 = restarted w ++ ["fastapi-service"]) /\
  (current_services w = new_services w d ->
   restarted w2 = restarted w).
Proof.
  intros Hreach Hdb Hdom w1 w2.
  pose proof (reconcile_settles w d Hreach Hdb Hdom) as Hsame. fold w1 in Hsame.
  destruct (reconcile_connected_again w d Hreach Hdb) as (Hreach1 & Hdb1 & _).
  fold w1 in Hreach1, Hdb1.
  destruct (reconcile_noop w1 d Hreach1 Hdb1 Hsame) as [v2 Hw2].
  assert (restarted w2 = restarted w1 /\ added_layers w2 = added_layers w1)
    as [Hr Hl] by (unfold w2; by rewrite Hw2).
  repeat split; [done..| |].
  - intros Hne. rewrite Hr. unfold w1.
    by destruct (reconcile_apply w d Hreach Hdb Hne) as [v ->].
  - intros Heq. rewrite Hr. unfold w1.
    by destruct (reconcile_noop w d Hreach Hdb Heq) as [v ->].
Qed.

Lemma unchanged_definition_restarts_once_witness :
  supervisor_reachable database_unit = true /\
  database_connected database_unit postgres_db_data /\
  restarted (_update_layer_and_restart
               (_update_layer_and_restart database_unit).2).2 =
    restarted database_unit ++ ["fastapi-service"].
Proof.
  assert (database_connected database_unit postgres_db_data) as Hdb
    by (vm_compute; reflexivity).
  split; [reflexivity|]. split; [exact Hdb|].
  assert (dom (plan_services database_unit) ⊆ ({[ "fastapi-service" ]} : gset string))
    as Hdom by (vm_compute; set_solver).
  destruct (unchanged_definition_restarts_once database_unit postgres_db_data
              eq_refl Hdb Hdom) as (_ & _ & _ & Honce & _).
  apply Honce. intros Heq.
  apply (f_equal (fun m : gmap string ServiceDict => m !! "fastapi-service")) in Heq.
  vm_compute in Heq. discriminate.
Defined.

(** ** C4 *)

(** C4 as stated fails.  On [reconciled_unit] the currently active document
    (the plan, which carries neither summary nor description) differs from
    the newly computed one, yet the services are equal and nothing is
    restarted. *)
Lemma restart_full_document_counterexample :
  ~ (forall (w : World) (d : gmap string string),
       supervisor_reachable w = true ->
       database_connected w d ->
       (restarted (_update_layer_and_restart w).2 ≠ restarted w <->
        Plan_to_dict (plan_services w) ≠
          Layer_to_dict (layer_of (config_server_port w) d))).
Proof.
  intros H.
  assert (database_connected reconciled_unit postgres_db_data) as Hdb
    by (vm_compute; reflexivity).
  apply (proj2 (H reconciled_unit postgres_db_data eq_refl Hdb)).
  - intros Hdoc. apply (f_equal doc_summary) in Hdoc. discriminate.
  - vm_compute. reflexivity.
Qed.

(** C4, amended.  With a reachable supervisor and connected database, the
    apply-on-change decision is structural equality of the services alone:
    the managed process is restarted (and the layer added) if and only if
    the services of the current plan differ from the services of the newly
    computed document; summary and description take no part in it. *)
Theorem restart_decided_by_services (w : World) (d : gmap string string) :
  supervisor_reachable w = true ->
  database_connected w d ->
  let w' := (_update_layer_and_restart w).2 in
  (current_services w ≠ new_services w d ->
   restarted w' = restarted w ++ ["fastapi-service"] /\
   added_layers w' =
     added_layers w ++ [("fastapi_demo", layer_of (config_server_port w) d)]) /\
  (current_services w = new_services w d ->
   restarted w' = restarted w /\ added_layers w' = added_layers w /\
   plan_services w' = plan_services w).
Proof.
  intros Hreach Hdb. cbn zeta. split.
  - intros Hne. by destruct (reconcile_apply w d Hreach Hdb Hne) as [v ->].
  - intros Heq. by destruct (reconcile_noop w d Hreach Hdb Heq) as [v ->].
Qed.

Lemma restart_decided_by_services_witness :
  restarted (_update_layer_and_restart reconciled_unit).2 =
    restarted reconciled_unit.
Proof.
  assert (database_connected reconciled_unit postgres_db_data) as Hdb
    by (vm_compute; reflexivity).
  refine (proj1 (proj2 (restart_decided_by_services reconciled_unit
                          postgres_db_data eq_refl Hdb) _)).
  apply (reconcile_settles database_unit postgres_db_data eq_refl).
  - vm_compute; reflexivity.
  - vm_compute. set_solver.
Defined.

(** ** C5 *)

(** C5.  For a configuration-changed notification with port 22 the handler
    returns with the status Blocked("Invalid port number, 22 is reserved for
    SSH") and nothing else changed: the opened ports, the plan, the added
    layers, the restarts are as before. *)
Theorem config_changed_port_22 (w : World) :
  config_server_port w = 22 ->
  dispatch config_changed w =
    (Returns tt,
     with_unit_status
       (BlockedStatus "Invalid port number, 22 is reserved for SSH") w) /\
  let w' := (dispatch config_changed w).2 in
  unit_status w' = BlockedStatus "Invalid port number, 22 is reserved for SSH" /\
  opened_ports w' = opened_ports w /\
  plan_services w' = plan_services w /\
  added_layers w' = added_layers w /\
  restarted w' = restarted w /\
  workload_versions w' = workload_versions w.
Proof.
  change (dispatch config_changed) with _on_config_changed.
  intros H. rewrite (config_changed_22 w H). by cbn.
Qed.

Lemma config_changed_port_22_witness :
  config_server_port ssh_port_unit = 22 /\
  unit_status (dispatch config_changed ssh_port_unit).2 =
    BlockedStatus "Invalid port number, 22 is reserved for SSH" /\
  22 ∉ opened_ports (dispatch config_changed ssh_port_unit).2.
Proof.
  split; [reflexivity|].
  destruct (config_changed_port_22 ssh_port_unit eq_refl)
    as (_ & Hstatus & Hports & _).
  split; [exact Hstatus|].
  rewrite Hports. vm_compute. set_solver.
Defined.

(** ** C6 *)

(** C6 as stated fails: port 8000 is in range and is not 22, but on
    [unreachable_unit] the status after the configuration-changed
    notification is Waiting, not Active. *)
Lemma config_changed_always_active_counterexample :
  ~ (forall w : World,
       config_server_port w ≠ 22 ->
       1 <= config_server_port w <= 65535 ->
       let w' := (dispatch config_changed w).2 in
       unit_status w' = ActiveStatus "" /\ config_server_port w ∈ opened_ports w').
Proof.
  change (dispatch config_changed) with _on_config_changed.
  intros H.
  assert (config_server_port unreachable_unit ≠ 22) as Hne by (by vm_compute).
  assert (1 <= config_server_port unreachable_unit <= 65535) as Hrange
    by (by vm_compute).
  destruct (H unreachable_unit Hne Hrange) as [Hstatus _].
  vm_compute in Hstatus. discriminate.
Qed.

(** C6, amended.  For every configured port p other than 22 in [1,65535],
    handling a configuration-changed notification opens p (the opened-port
    set is exactly {p}); when the supervisor is reachable and the database
    connection data is available, the handler returns and the unit status
    is Active. *)
Theorem config_changed_valid_port (w : World) (p : Z) :
  config_server_port w = p ->
  p ≠ 22 ->
  1 <= p <= 65535 ->
  let w' := (dispatch config_changed w).2 in
  (p ∈ opened_ports w' /\ opened_ports w' = {[ p ]}) /\
  (supervisor_reachable w = true ->
   forall d, database_connected w d ->
     (dispatch config_changed w).1 = Returns tt /\ unit_status w' = ActiveStatus "").
Proof.
  change (dispatch config_changed) with _on_config_changed.
  intros Hp Hne Hrange. cbn zeta. subst p.
  rewrite (config_changed_other_port w Hne Hrange).
  set (w0 := with_opened_ports _ w). split.
  - rewrite (_update_layer_and_restart_keeps opened_ports) by done.
    cbn. split; [set_solver|done].
  - intros Hreach d Hdb.
    assert (database_connected w0 d) as Hdb0
      by (by apply (fetch_connected_anywhere w d)).
    destruct (reconcile_connected w0 d Hreach Hdb0) as [v ->].
    by case_bool_decide.
Qed.

Lemma config_changed_valid_port_witness :
  1234 ≠ 22 /\ 1 <= 1234 <= 65535 /\
  1234 ∈ opened_ports (dispatch config_changed custom_port_unit).2 /\
  unit_status (dispatch config_changed custom_port_unit).2 = ActiveStatus "".
Proof.
  assert (1234 ≠ 22) as Hne by lia.
  assert (1 <= 1234 <= 65535) as Hrange by lia.
  assert (database_connected custom_port_unit postgres_db_data) as Hdb
    by (vm_compute; reflexivity).
  destruct (config_changed_valid_port custom_port_unit 1234 eq_refl Hne Hrange)
    as [[Hopen _] Hactive].
  destruct (Hactive eq_refl postgres_db_data Hdb) as [_ Hstatus].
  by repeat split.
Defined.

(** ** C7 *)

(** C7.  Whenever reconciliation runs and the supervisor is unreachable, the
    handler returns with the status Waiting("Waiting for Pebble in workload
    container") and nothing else changed: no layer was added, the managed
    process was not restarted, no workload version was reported. *)
Theorem reconcile_unreachable_only_waits (w : World) :
  supervisor_reachable w = false ->
  _update_layer_and_restart w =
    (Returns tt,
     with_unit_status
       (WaitingStatus "Waiting for Pebble in workload container") w) /\
  let w' := (_update_layer_and_restart w).2 in
  unit_status w' = WaitingStatus "Waiting for Pebble in workload container" /\
  added_layers w' = added_layers w /\
  plan_services w' = plan_services w /\
  restarted w' = restarted w /\
  workload_versions w' = workload_versions w.
Proof.
  intros H. rewrite (reconcile_unreachable w H). by cbn.
Qed.

Lemma reconcile_unreachable_only_waits_witness :
  supervisor_reachable unreachable_unit = false /\
  _update_layer_and_restart unreachable_unit =
    (Returns tt,
     with_unit_status
       (WaitingStatus "Waiting for Pebble in workload container")
       unreachable_unit).
Proof.
  split; [reflexivity|].
  exact (proj1 (reconcile_unreachable_only_waits unreachable_unit eq_refl)).
Defined.

(** ** C8 *)

Lemma get_peer_data_absent_key w bag key :
  peer_app_data w = Some bag ->
  bag !! key = None ->
  get_peer_data key w = (Returns ∅, w).
Proof. intros Hbag Hkey. unfold get_peer_data. run. by rewrite Hbag, Hkey. Qed.

Lemma get_peer_data_loads w bag key doc d :
  peer_app_data w = Some bag ->
  bag !! key = Some doc ->
  json_loads doc = Some d ->
  get_peer_data key w = (Returns d, w).
Proof.
  intros Hbag Hkey Hdoc. unfold get_peer_data. run. rewrite Hbag, Hkey. cbn.
  destruct doc; [discriminate|]. by rewrite Hdoc.
Qed.

Lemma count_records w bag d :
  peer_app_data w = Some bag ->
  unit_is_leader w = true ->
  get_peer_data "unit_stats" w = (Returns d, w) ->
  _count w =
    (Returns tt,
     with_peer_app_data
       (Some (<[ "unit_stats" :=
                   json_dumps [("started_counter",
                                default 0 (d !! "started_counter") + 1)] ]> bag))
       w).
Proof.
  intros Hbag Hleader Hget. unfold _count.
  rewrite (bind_returns _ _ _ _ _ Hget).
  unfold set_peer_data. run. by rewrite Hbag, Hleader.
Qed.

Lemma count_follower w bag d :
  peer_app_data w = Some bag ->
  unit_is_leader w = false ->
  get_peer_data "unit_stats" w = (Returns d, w) ->
  _count w = (Raises RelationDataAccessError, w).
Proof.
  intros Hbag Hleader Hget. unfold _count.
  rewrite (bind_returns _ _ _ _ _ Hget).
  unfold set_peer_data. run. by rewrite Hbag, Hleader.
Qed.

(** Not every unit start records a counter: on [fresh_unit], where the
    peer relation does not exist, the handler raises and nothing is stored. *)
Lemma unit_start_always_counts_counterexample :
  ~ (forall w : World,
       exists (bag : gmap string string) (n : Z),
         (dispatch start w).1 = Returns tt /\
         peer_app_data (dispatch start w).2 = Some bag /\
         bag !! "unit_stats" = Some (json_dumps [("started_counter", n)])).
Proof.
  change (dispatch start) with _count.
  intros H. destruct (H fresh_unit) as (bag & n & Hret & _).
  vm_compute in Hret. discriminate.
Qed.

(** C8 (the code departs from it).  A unit-start notification on
    [fresh_unit], whose peer relation does not exist: [get_peer_data] takes
    the missing relation for an empty mapping, so the counter is read as 0,
    but [set_peer_data] dereferences the missing relation; the handler
    raises [AttributeError] and stores no counter, where the claim has the
    counter recorded as 1. *)
Theorem unit_start_without_peer_relation :
  peer_app_data fresh_unit = None /\
  get_peer_data "unit_stats" fresh_unit = (Returns ∅, fresh_unit) /\
  dispatch start fresh_unit = (Raises AttributeError, fresh_unit) /\
  peer_app_data (dispatch start fresh_unit).2 = None.
Proof. repeat split. Qed.

(** ** C9 *)

(** C9.  Without a peer relation, [get_peer_data] returns the empty mapping
    but [set_peer_data] raises (it dereferences the missing relation), so the
    unit-start handler [_count] raises and records nothing. *)
Theorem peer_access_without_relation (w : World) (key : string)
    (data : list (string * Z)) :
  peer_app_data w = None ->
  get_peer_data key w = (Returns ∅, w) /\
  set_peer_data key data w = (Raises AttributeError, w) /\
  dispatch start w = (Raises AttributeError, w).
Proof.
  change (dispatch start) with _count.
  intros Hnone. unfold _count, get_peer_data, set_peer_data. run.
  rewrite Hnone. cbn. by rewrite Hnone.
Qed.

Lemma peer_access_without_relation_witness :
  peer_app_data fresh_unit = None /\
  dispatch start fresh_unit = (Raises AttributeError, fresh_unit).
Proof.
  split; [reflexivity|].
  exact (proj2 (proj2 (peer_access_without_relation fresh_unit "unit_stats" []
                         eq_refl))).
Defined.

(** ** C10 *)

(** C10 as stated fails for a port the orchestrator refuses: on
    [out_of_range_unit] the configured port is 65536, [set_ports] raises
    [ModelError], reconciliation does not run, the port is not opened and
    the status is not Waiting. *)
Lemma config_changed_any_port_counterexample :
  ~ (forall w : World,
       config_server_port w ≠ 22 ->
       let w' := (dispatch config_changed w).2 in
       config_server_port w ∈ opened_ports w' /\
       (supervisor_reachable w = false ->
        unit_status w' = WaitingStatus "Waiting for Pebble in workload container")).
Proof.
  intros H.
  assert (config_server_port out_of_range_unit ≠ 22) as Hne by (by vm_compute).
  destruct (H out_of_range_unit Hne) as [_ Hstatus].
  specialize (Hstatus eq_refl). vm_compute in Hstatus. discriminate.
Qed.

(** C10, amended.  On a configuration-changed notification with a port
    other than 22 in 1..65535, the port is opened first and reconciliation
    then runs on the state with the port opened; whatever reconciliation
    does, the opened-port set afterwards is that port; in particular, when
    the supervisor is unreachable the handler ends with the status Waiting
    and the port opened. *)
Theorem config_changed_opens_port_first (w : World) :
  config_server_port w ≠ 22 ->
  1 <= config_server_port w <= 65535 ->
  let p := config_server_port w in
  dispatch config_changed w = _update_layer_and_restart (with_opened_ports {[ p ]} w) /\
  opened_ports (dispatch config_changed w).2 = {[ p ]} /\
  p ∈ opened_ports (dispatch config_changed w).2 /\
  (supervisor_reachable w = false ->
   dispatch config_changed w =
     (Returns tt,
      with_unit_status (WaitingStatus "Waiting for Pebble in workload container")
        (with_opened_ports {[ p ]} w))).
Proof.
  change (dispatch config_changed) with _on_config_changed.
  intros Hne Hrange p.
  assert (opened_ports (_on_config_changed w).2 = {[ p ]}) as Hopen.
  { rewrite (config_changed_other_port w Hne Hrange).
    by rewrite (_update_layer_and_restart_keeps opened_ports). }
  split; [by apply config_changed_other_port|].
  split; [done|]. split; [rewrite Hopen; set_solver|].
  intros Hreach. rewrite (config_changed_other_port w Hne Hrange).
  by apply reconcile_unreachable.
Qed.

Lemma config_changed_opens_port_first_witness :
  config_server_port unreachable_unit ≠ 22 /\
  1 <= config_server_port unreachable_unit <= 65535 /\
  8000 ∈ opened_ports (dispatch config_changed unreachable_unit).2 /\
  unit_status (dispatch config_changed unreachable_unit).2 =
    WaitingStatus "Waiting for Pebble in workload container".
Proof.
  assert (config_server_port unreachable_unit ≠ 22) as Hne by (by vm_compute).
  assert (1 <= config_server_port unreachable_unit <= 65535) as Hrange
    by (by vm_compute).
  destruct (config_changed_opens_port_first unreachable_unit Hne Hrange)
    as (_ & _ & Hin & Hwait).
  split; [exact Hne|]. split; [exact Hrange|]. split; [exact Hin|].
  by rewrite (Hwait eq_refl).
Defined.

(** * Further properties of the handlers *)

(** ** The relation-data fetch *)

Lemma length_split c s : length (split c s) = S (count_char c s).
Proof.
  induction s as [|a s IH]; [done|]. cbn [split count_char].
  destruct (Ascii.eqb a c).
  - cbn. by rewrite IH.
  - destruct (split c s) as [|f fs]; cbn in *; lia.
Qed.

Lemma split_one_inv s p : split ":" s = [p] -> s = p /\ no_colon p = true.
Proof.
  revert p. induction s as [|a s IH]; intros p; cbn [split].
  - by intros [= <-].
  - destruct (Ascii.eqb a ":") eqn:Ha.
    + intros [= _ Hs]. pose proof (length_split ":" s) as Hlen.
      by rewrite Hs in Hlen.
    + destruct (split ":" s) as [|f fs] eqn:Hs.
      * pose proof (length_split ":" s) as Hlen. by rewrite Hs in Hlen.
      * intros [= <- ->]. destruct (IH f eq_refl) as [-> Hf]. split; [done|].
        cbn [no_colon]. by rewrite Ha, Hf.
Qed.

Lemma split_two_inv s h p :
  split ":" s = [h; p] ->
  s = h +:+ String ":" p /\ no_colon h = true /\ no_colon p = true.
Proof.
  revert h. induction s as [|a s IH]; intros h; cbn [split]; [done|].
  destruct (Ascii.eqb a ":") eqn:Ha.
  - intros [= <- Hs]. apply Ascii.eqb_eq in Ha as ->.
    by destruct (split_one_inv s p Hs) as [-> Hp].
  - destruct (split ":" s) as [|f fs] eqn:Hs; [done|].
    intros [= <- ->]. destruct (IH f eq_refl) as (-> & Hf & Hp).
    repeat split; [|done]. cbn [no_colon]. by rewrite Ha, Hf.
Qed.

Lemma fetch_postgres_loop_skips empties vs w :
  Forall (fun d : gmap string string => d = ∅) empties ->
  fetch_postgres_loop (empties ++ vs) w = fetch_postgres_loop vs w.
Proof.
  induction 1 as [|d empties -> _ IH]; [done|].
  cbn [app fetch_postgres_loop]. by rewrite dom_empty_L, bool_decide_true.
Qed.

Lemma fetch_postgres_loop_first data rest w :
  dom data ≠ ∅ ->
  fetch_postgres_loop (data :: rest) w = fetch_postgres_loop [data] w.
Proof. intros Hne. cbn [fetch_postgres_loop]. by rewrite !bool_decide_false. Qed.

(** X1.  [fetch_postgres_relation_data] returns connection data [d] exactly
    when the first database relation that carries data has an endpoint of
    the form host:port (no further colon), a user name and a password, and
    [d] maps db_host, db_port, db_username and db_password to them;
    relations without data before it are skipped, relations after it are
    not looked at, and the state is left as it was. *)
Theorem fetch_returns_iff (w : World) (d : gmap string string) :
  database_connected w d <->
  exists empties id data rest h p u pw,
    database_relations w = empties ++ (id, data) :: rest /\
    Forall (fun r : Z * gmap string string => r.2 = ∅) empties /\
    data !! "endpoints" = Some (h +:+ String ":" p) /\
    no_colon h = true /\ no_colon p = true /\
    data !! "username" = Some u /\
    data !! "password" = Some pw /\
    d = {[ "db_host" := h; "db_port" := p;
           "db_username" := u; "db_password" := pw ]}.
Proof.
  split.
  - unfold database_connected, fetch_postgres_relation_data. run.
    generalize (database_relations w) as rels.
    induction rels as [|[id data] rels IH]; cbn [fmap list_fmap snd fetch_postgres_loop].
    + run. discriminate.
    + case_bool_decide as Hdom.
      * intros Hrest. destruct (IH Hrest)
          as (empties & id' & data' & rest & h & p & u & pw & -> & Hempty & Hrem).
        exists ((id, data) :: empties), id', data', rest, h, p, u, pw.
        split; [done|]. split; [|done].
        constructor; [|done]. by apply (dom_empty_inv_L (D := gset string)).
      * unfold unpack2. run.
        destruct (data !! "endpoints") as [ep|] eqn:Hep; [|discriminate].
        destruct (split ":" ep) as [|h [|p [|x parts]]] eqn:Hsplit;
          try discriminate.
        destruct (data !! "username") as [u|] eqn:Hu; [|discriminate].
        destruct (data !! "password") as [pw|] eqn:Hpw; [|discriminate].
        intros [= <-]. apply split_two_inv in Hsplit as (-> & Hh & Hp).
        by exists [], id, data, rels, h, p, u, pw.
  - intros (empties & id & data & rest & h & p & u & pw
            & Hrel & Hempty & Hep & Hh & Hp & Hu & Hpw & ->).
    by eapply database_connected_intro.
Qed.

(** X2.  Only the first database relation that carries data is consulted:
    relations without data before it are skipped and whatever follows it
    has no influence, on the result or on a raised exception. *)
Theorem fetch_first_relation_decides (w : World)
    (empties rest : list (gmap string string)) (data : gmap string string) :
  Forall (fun d : gmap string string => d = ∅) empties ->
  dom data ≠ ∅ ->
  fetch_postgres_loop (empties ++ data :: rest) w = fetch_postgres_loop [data] w.
Proof.
  intros Hempty Hdata. rewrite (fetch_postgres_loop_skips _ _ _ Hempty).
  by apply fetch_postgres_loop_first.
Qed.

Lemma fetch_first_relation_decides_witness :
  fetch_postgres_loop
    ([∅; ∅] ++ {[ "endpoints" := "db-0:5432,db-1:5432" ]} :: [postgres_data])
    fresh_unit
  = (Raises ValueError, fresh_unit).
Proof.
  rewrite (fetch_first_relation_decides fresh_unit [∅; ∅] [postgres_data]
             {[ "endpoints" := "db-0:5432,db-1:5432" ]}).
  - vm_compute. reflexivity.
  - by repeat constructor.
  - rewrite dom_singleton_L. set_solver.
Defined.

(** X3.  Relation data that is there but malformed makes the fetch raise
    without touching the state (the status included): [KeyError] when the
    endpoints are missing, [ValueError] when the endpoints do not hold
    exactly one colon, [KeyError] when the endpoint is well-formed but the
    user name, or the user name is there but the password, is missing. *)
Theorem fetch_malformed_data_raises (w : World) (data : gmap string string)
    (rest : list (gmap string string)) :
  dom data ≠ ∅ ->
  (data !! "endpoints" = None ->
   fetch_postgres_loop (data :: rest) w = (Raises (KeyError "endpoints"), w)) /\
  (forall ep, data !! "endpoints" = Some ep -> count_char ":" ep ≠ 1%nat ->
   fetch_postgres_loop (data :: rest) w = (Raises ValueError, w)) /\
  (forall ep, data !! "endpoints" = Some ep -> count_char ":" ep = 1%nat ->
   data !! "username" = None ->
   fetch_postgres_loop (data :: rest) w = (Raises (KeyError "username"), w)) /\
  (forall ep, data !! "endpoints" = Some ep -> count_char ":" ep = 1%nat ->
   is_Some (data !! "username") -> data !! "password" = None ->
   fetch_postgres_loop (data :: rest) w = (Raises (KeyError "password"), w)).
Proof.
  intros Hdata. cbn [fetch_postgres_loop]. rewrite bool_decide_false by done.
  unfold unpack2. run. repeat split.
  - by intros ->.
  - intros ep -> Hcount. pose proof (length_split ":" ep) as Hlen.
    destruct (split ":" ep) as [|h [|p [|x parts]]]; cbn in Hlen; try done.
    lia.
  - intros ep -> Hcount ->. pose proof (length_split ":" ep) as Hlen.
    destruct (split ":" ep) as [|h [|p [|x parts]]]; cbn in Hlen; try done; lia.
  - intros ep -> Hcount [u ->] ->. pose proof (length_split ":" ep) as Hlen.
    destruct (split ":" ep) as [|h [|p [|x parts]]]; cbn in Hlen; try done; lia.
Qed.

Lemma fetch_malformed_data_raises_witness :
  fetch_postgres_loop
    [ {[ "endpoints" := "10.1.2.3"; "username" := "demo"; "password" := "s3cret" ]} ]
    database_unit
  = (Raises ValueError, database_unit).
Proof.
  refine (proj1 (proj2 (fetch_malformed_data_raises database_unit _ [] _))
            "10.1.2.3" _ _).
  - rewrite !dom_insert_L. set_solver.
  - reflexivity.
  - vm_compute. lia.
Defined.

(** X4.  The environment built for the service never holds a null value:
    whenever [app_environment] returns, the state is as before and each of
    the four DEMO_SERVER_DB_* variables has a text as value (the [None]
    defaults of its lookups are never used). *)
Theorem app_environment_never_null (w w' : World)
    (env : gmap string (option string)) :
  app_environment w = (Returns env, w') ->
  w' = w /\
  dom env = {[ "DEMO_SERVER_DB_HOST"; "DEMO_SERVER_DB_PORT";
               "DEMO_SERVER_DB_USER"; "DEMO_SERVER_DB_PASSWORD" ]} /\
  forall k v, env !! k = Some v -> is_Some v.
Proof.
  unfold app_environment, fetch_postgres_relation_data. run.
  destruct (fetch_postgres_loop _ w) as [[d|e] w1] eqn:Hfetch; [|discriminate].
  intros [= <- <-].
  pose proof (fetch_postgres_loop_keys _ _ _ _ Hfetch) as Hkeys.
  apply fetch_postgres_loop_returns in Hfetch as [-> _].
  split; [done|]. split.
  - rewrite !dom_insert_L, dom_singleton_L. set_solver.
  - assert (forall k, k ∈ dom d -> is_Some (d !! k)) as Hin
      by (intros k Hk; by apply elem_of_dom).
    intros k v Hk.
    repeat (apply lookup_insert_Some in Hk as [[_ <-]|[_ Hk]];
            [apply Hin; rewrite Hkeys; set_solver|]).
    apply lookup_singleton_Some in Hk as [_ <-].
    apply Hin. rewrite Hkeys. set_solver.
Qed.

Lemma app_environment_never_null_witness :
  let env : gmap string (option string) :=
    {[ "DEMO_SERVER_DB_HOST" := Some "10.1.2.3";
       "DEMO_SERVER_DB_PORT" := Some "5432";
       "DEMO_SERVER_DB_USER" := Some "demo";
       "DEMO_SERVER_DB_PASSWORD" := Some "s3cret" ]} in
  app_environment database_unit = (Returns env, database_unit) /\
  forall k v, env !! k = Some v -> is_Some v.
Proof.
  intros env.
  assert (app_environment database_unit = (Returns env, database_unit)) as H
    by (vm_compute; reflexivity).
  split; [exact H|].
  exact (proj2 (proj2 (app_environment_never_null _ _ _ H))).
Defined.

Lemma fetch_postgres_loop_raises vs w e w' :
  fetch_postgres_loop vs w = (Raises e, w') ->
  (e = SystemExit 0 /\
   w' = with_unit_status (WaitingStatus "Waiting for database relation") w /\
   Forall (fun d : gmap string string => d = ∅) vs) \/
  (is_Exception e = true /\ w' = w /\
   forall w2, fetch_postgres_loop vs w2 = (Raises e, w2)).
Proof.
  induction vs as [|data rest IH]; cbn [fetch_postgres_loop].
  - run. intros [= <- <-]. left. by repeat split.
  - case_bool_decide as Hdom.
    + intros Hrest. destruct (IH Hrest) as [(-> & -> & Hall)|Hexc]; [|by right].
      left. repeat split; [done..|].
      constructor; [|done]. by apply (dom_empty_inv_L (D := gset string)).
    + unfold unpack2. run. right.
      destruct (data !! "endpoints") as [ep|];
        [|by revert H; intros [= <- <-]].
      destruct (split ":" ep) as [|h [|p [|x parts]]];
        try by revert H; intros [= <- <-].
      destruct (data !! "username") as [u|];
        [|by revert H; intros [= <- <-]].
      destruct (data !! "password") as [pw|];
        [|by revert H; intros [= <- <-]].
      discriminate.
Qed.

(** ** The diagnostic action *)

(** X5.  With connection data available, the get-db-info action returns
    normally and sets exactly one result: host and port, and user name and
    password in addition only when show-password is true; nothing else in
    the state changes. *)
Theorem get_db_info_with_database (w : World) (d : gmap string string) (b : bool) :
  database_connected w d ->
  dispatch (get_db_info_action {[ "show-password" := b ]}) w =
    (Returns tt,
     with_action_results
       (action_results w ++
          [ if b
            then {[ "db-host" := d !! "db_host"; "db-port" := d !! "db_port";
                    "db-username" := d !! "db_username";
                    "db-password" := d !! "db_password" ]}
            else {[ "db-host" := d !! "db_host"; "db-port" := d !! "db_port" ]} ])
       w).
Proof.
  intros Hdb. cbn [dispatch]. unfold _on_get_db_info_action, getitem.
  rewrite lookup_singleton_eq. run. rewrite Hdb.
  destruct b; reflexivity.
Qed.

Lemma get_db_info_with_database_witness :
  database_connected database_unit postgres_db_data /\
  action_results
    (dispatch (get_db_info_action {[ "show-password" := false ]}) database_unit).2
  = [ {[ "db-host" := Some "10.1.2.3"; "db-port" := Some "5432" ]} ].
Proof.
  assert (database_connected database_unit postgres_db_data) as Hdb
    by (vm_compute; reflexivity).
  split; [exact Hdb|].
  by rewrite (get_db_info_with_database database_unit postgres_db_data false Hdb).
Defined.

(** X6.  When the relation-data fetch raises an exception other than
    [SystemExit] (malformed relation data), the action sets no result at
    all: the [finally] clause finds [output] unbound, and the action ends
    with [UnboundLocalError] in place of the original exception, the state
    unchanged. *)
Theorem get_db_info_malformed (w w' : World) (e : exn) (b : bool) :
  fetch_postgres_relation_data w = (Raises e, w') ->
  is_Exception e = true ->
  dispatch (get_db_info_action {[ "show-password" := b ]}) w =
    (Raises (UnboundLocalError "output"), w).
Proof.
  intros Hfetch Hexc. cbn [dispatch]. unfold _on_get_db_info_action, getitem.
  rewrite lookup_singleton_eq. run.
  assert (w' = w) as ->.
  { revert Hfetch. unfold fetch_postgres_relation_data. run. intros Hfetch.
    apply fetch_postgres_loop_raises in Hfetch as [(-> & _)|(_ & -> & _)];
      [discriminate|done]. }
  rewrite Hfetch. by destruct e.
Qed.

Lemma get_db_info_malformed_witness :
  fetch_postgres_relation_data two_endpoints_unit =
    (Raises ValueError, two_endpoints_unit) /\
  dispatch (get_db_info_action {[ "show-password" := true ]}) two_endpoints_unit =
    (Raises (UnboundLocalError "output"), two_endpoints_unit).
Proof.
  assert (fetch_postgres_relation_data two_endpoints_unit =
            (Raises ValueError, two_endpoints_unit)) as Hfetch
    by (vm_compute; reflexivity).
  split; [exact Hfetch|].
  exact (get_db_info_malformed _ _ ValueError true Hfetch eq_refl).
Defined.

(** ** Reconciliation *)

(** X7.  Reconciliation, whatever its outcome, never touches the opened
    ports, the peer data or the action results, nor what it only reads (the
    configuration, the relation data, the reachability of the supervisor). *)
Theorem reconcile_never_touches (w : World) :
  let w' := (_update_layer_and_restart w).2 in
  opened_ports w' = opened_ports w /\
  peer_app_data w' = peer_app_data w /\
  action_results w' = action_results w /\
  config_server_port w' = config_server_port w /\
  database_relations w' = database_relations w /\
  supervisor_reachable w' = supervisor_reachable w.
Proof.
  cbn zeta. repeat split;
    by apply (_update_layer_and_restart_keeps _).
Qed.

Lemma get_services_found w :
  bool_decide
    (dom (filter (fun kv : string * Service => kv.1 = pebble_service_name)
            (plan_services w)) = ∅)
  = negb (bool_decide (is_Some (plan_services w !! "fastapi-service"))).
Proof.
  destruct (plan_services w !! "fastapi-service") as [svc|] eqn:Hsvc.
  - rewrite bool_decide_false, bool_decide_true; [done..|].
    intros Hdom. apply (dom_empty_inv_L (D := gset string)) in Hdom.
    assert (filter (fun kv : string * Service => kv.1 = pebble_service_name)
              (plan_services w) !! "fastapi-service" = Some svc) as Hin
      by (by apply map_lookup_filter_Some).
    by rewrite Hdom in Hin.
  - rewrite bool_decide_true, bool_decide_false; [done| |].
    + by intros [? ?].
    + apply dom_empty_iff_L, map_empty. intros k.
      apply map_lookup_filter_None. destruct (decide (k = "fastapi-service"))
        as [->|Hk]; [by left|]. right. intros svc _ Hname. by apply Hk.
Qed.

Lemma version_value (w : World) :
  version w =
    (Returns
       (if supervisor_reachable w
             && bool_decide (is_Some (plan_services w !! "fastapi-service"))
        then endpoint_version w else ""),
     w).
Proof.
  unfold version, _request_version, endpoint_version. run.
  destruct (supervisor_reachable w); [|done]. cbn [andb].
  rewrite get_services_found, negb_involutive.
  case_bool_decide; [|done].
  by destruct (version_endpoint w (config_server_port w)).
Qed.

(** X8.  [version] never raises and never changes the state.  It yields the
    answer of the workload's version endpoint on the configured port when
    the supervisor is reachable, the service is in the plan and the request
    succeeds, and the empty text in every other case. *)
Theorem version_never_raises (w : World) :
  version w =
    (Returns
       (if supervisor_reachable w
             && bool_decide (is_Some (plan_services w !! "fastapi-service"))
        then default "" (version_endpoint w (config_server_port w)) else ""),
     w).
Proof.
  unfold version, _request_version. run.
  destruct (supervisor_reachable w); [|done]. cbn [andb].
  rewrite get_services_found, negb_involutive.
  case_bool_decide; [|done].
  by destruct (version_endpoint w (config_server_port w)).
Qed.

Lemma new_services_in_plan w d :
  current_services w = new_services w d ->
  is_Some (plan_services w !! "fastapi-service").
Proof.
  intros Heq.
  apply (f_equal (fun m : gmap string ServiceDict => m !! "fastapi-service")) in Heq.
  rewrite current_services_fmap, lookup_fmap in Heq.
  rewrite new_services_singleton, lookup_singleton_eq in Heq.
  by destruct (plan_services w !! "fastapi-service").
Qed.

(** X9.  With a reachable supervisor and connection data available,
    reconciliation returns with the status Active and reports exactly one
    workload version: the answer of the version endpoint (the empty text
    when the request fails).  The version is asked for after the layer has
    been applied, so also the very first reconciliation reports it.  The
    layer is added and the process restarted only when the services
    differ. *)
Theorem reconcile_reports_version (w : World) (d : gmap string string) :
  supervisor_reachable w = true ->
  database_connected w d ->
  _update_layer_and_restart w =
    (Returns tt,
     if bool_decide (current_services w ≠ new_services w d)
     then after_apply w (layer_of (config_server_port w) d) (endpoint_version w)
     else after_noop w (endpoint_version w)).
Proof.
  intros Hreach Hdb.
  unfold _update_layer_and_restart.
  unfold set_status, can_connect, get_plan, read, modify.
  unfold mbind at 1 2, Handler_bind at 1 2.
  cbn [supervisor_reachable with_unit_status]. rewrite Hreach.
  set (w1 := with_unit_status _ w).
  rewrite (bind_returns _ _ w1 _ w1 (_pebble_layer_connected w d w1 Hdb eq_refl)).
  unfold mbind at 1 2, Handler_bind at 1 2.
  rewrite (layer_of_doc_services _ d w1 eq_refl).
  change (new_services w1 d) with (new_services w d).
  change (config_server_port w1) with (config_server_port w).
  change (default ∅ (doc_services (Plan_to_dict (plan_services w1))))
    with (current_services w).
  unfold mret at 1, Handler_ret at 1.
  case_bool_decide as Hne.
  - erewrite bind_returns; last first.
    { erewrite bind_returns; [|by apply (_pebble_layer_connected w d w1)].
      unfold add_layer, restart, modify, mbind, Handler_bind. reflexivity. }
    match goal with |- (version ≫= _) ?w2 = _ =>
      rewrite (bind_returns _ _ _ _ _ (version_value w2)) end.
    subst w1.
    cbn [supervisor_reachable plan_services config_server_port
         with_unit_status with_restarted with_added_layers with_plan_services].
    rewrite Hreach, bool_decide_true; [reflexivity|].
    rewrite lookup_union. unfold layer_of. cbn [services].
    rewrite lookup_singleton_eq. by destruct (plan_services w !! _).
  - unfold mret at 1, Handler_ret at 1, mbind at 1, Handler_bind at 1.
    rewrite (bind_returns _ _ _ _ _ (version_value w1)).
    subst w1. cbn [supervisor_reachable plan_services with_unit_status].
    rewrite Hreach, bool_decide_true; [reflexivity|].
    apply (new_services_in_plan w d). by destruct (decide (current_services w = new_services w d)).
Qed.

Lemma reconcile_reports_version_witness :
  workload_versions (_update_layer_and_restart database_unit).2 = ["1.0.0"].
Proof.
  assert (database_connected database_unit postgres_db_data) as Hdb
    by (vm_compute; reflexivity).
  rewrite (reconcile_reports_version database_unit postgres_db_data eq_refl Hdb).
  by case_bool_decide.
Defined.

Lemma reconcile_fetch_raises w e w' :
  supervisor_reachable w = true ->
  fetch_postgres_relation_data
    (with_unit_status (MaintenanceStatus "Assembling pod spec") w) = (Raises e, w') ->
  _update_layer_and_restart w = (Raises e, w').
Proof.
  intros Hreach Hfetch. unfold _update_layer_and_restart.
  unfold set_status, can_connect, read, modify.
  unfold mbind at 1 2, Handler_bind at 1 2.
  cbn [supervisor_reachable with_unit_status]. rewrite Hreach.
  erewrite bind_raises; [reflexivity|].
  unfold _pebble_layer, app_environment, config_get_server_port, read.
  unfold mbind at 1, Handler_bind at 1.
  erewrite bind_raises; [reflexivity|].
  erewrite bind_raises; [reflexivity|]. exact Hfetch.
Qed.

Lemma fetch_raises_anywhere w e w' w2 :
  fetch_postgres_relation_data w = (Raises e, w') ->
  is_Exception e = true ->
  database_relations w2 = database_relations w ->
  fetch_postgres_relation_data w2 = (Raises e, w2).
Proof.
  unfold fetch_postgres_relation_data. run. intros Hfetch Hexc Hrel.
  rewrite Hrel.
  apply fetch_postgres_loop_raises in Hfetch as [(-> & _)|(_ & _ & Hany)];
    [discriminate|apply Hany].
Qed.

(** X10.  When the relation data is malformed (the fetch raises an exception
    other than [SystemExit]) and the supervisor is reachable, reconciliation
    ends with that exception and leaves the unit in the status
    Maintenance("Assembling pod spec"); nothing else has changed: no layer
    is added, nothing is restarted, no version is reported. *)
Theorem reconcile_malformed_data (w w0 : World) (e : exn) :
  supervisor_reachable w = true ->
  fetch_postgres_relation_data w = (Raises e, w0) ->
  is_Exception e = true ->
  _update_layer_and_restart w =
    (Raises e, with_unit_status (MaintenanceStatus "Assembling pod spec") w).
Proof.
  intros Hreach Hfetch Hexc. apply reconcile_fetch_raises; [done|].
  by apply (fetch_raises_anywhere w e w0).
Qed.

Lemma reconcile_malformed_data_witness :
  _update_layer_and_restart two_endpoints_unit =
    (Raises ValueError,
     with_unit_status (MaintenanceStatus "Assembling pod spec") two_endpoints_unit).
Proof.
  apply (reconcile_malformed_data two_endpoints_unit two_endpoints_unit);
    [reflexivity| |reflexivity].
  vm_compute. reflexivity.
Defined.

(** X11.  Every reconciliation ends in one of four ways: supervisor
    unreachable (returns, status Waiting for Pebble); no relation data
    ([SystemExit(0)], status Waiting for the database relation); malformed
    relation data (the exception of the fetch, status Maintenance); success
    (returns, status Active).  In the first three the status is the only change.  In
    particular reconciliation never leaves the status it found and never
    sets Blocked. *)
Theorem reconcile_outcomes (w : World) :
  (supervisor_reachable w = false /\
   _update_layer_and_restart w =
     (Returns tt,
      with_unit_status (WaitingStatus "Waiting for Pebble in workload container") w))
  \/
  (supervisor_reachable w = true /\ no_database_data w /\
   _update_layer_and_restart w =
     (Raises (SystemExit 0),
      with_unit_status (WaitingStatus "Waiting for database relation") w))
  \/
  (supervisor_reachable w = true /\
   exists e, is_Exception e = true /\
     fetch_postgres_relation_data w = (Raises e, w) /\
     _update_layer_and_restart w =
       (Raises e, with_unit_status (MaintenanceStatus "Assembling pod spec") w))
  \/
  (supervisor_reachable w = true /\
   exists d, database_connected w d /\
     (_update_layer_and_restart w).1 = Returns tt /\
     unit_status (_update_layer_and_restart w).2 = ActiveStatus "").
Proof.
  destruct (supervisor_reachable w) eqn:Hreach;
    [|left; split; [done|by apply reconcile_unreachable]].
  right. destruct (fetch_postgres_relation_data w) as [[d|e] w0] eqn:Hfetch.
  - right. right. split; [done|]. exists d.
    assert (database_connected w d) as Hdb.
    { unfold database_connected. rewrite Hfetch. f_equal.
      revert Hfetch. unfold fetch_postgres_relation_data. run.
      by intros [-> _]%fetch_postgres_loop_returns. }
    split; [done|].
    destruct (reconcile_connected w d Hreach Hdb) as [v ->].
    by case_bool_decide.
  - pose proof Hfetch as Hloop. revert Hloop.
    unfold fetch_postgres_relation_data at 1. run. intros Hloop.
    apply fetch_postgres_loop_raises in Hloop as [(-> & -> & Hall)|(Hexc & -> & _)].
    + left. assert (no_database_data w) as Hno.
      { unfold no_database_data. apply Forall_fmap in Hall.
        eapply Forall_impl; [exact Hall|]. by intros [id data]. }
      repeat split; [done|]. by apply reconcile_without_database.
    + right. left. split; [done|]. exists e. split; [done|]. split; [done|].
      apply reconcile_fetch_raises; [done|].
      by apply (fetch_raises_anywhere w e w).
Qed.

Lemma append_inj_r (s a b : string) : s +:+ a = s +:+ b -> a = b.
Proof. induction s as [|c s IH]; [done|]. intros [= H]. by apply IH. Qed.

Lemma str_of_int_inj (a b : Z) : str_of_int a = str_of_int b -> a = b.
Proof.
  intros H. apply DecimalZ.to_int_inj.
  pose proof (int_of_string_str_of_int a) as Ha.
  rewrite H, int_of_string_str_of_int in Ha. by injection Ha.
Qed.

(** X12.  A change of the configured port is always applied: when the plan
    holds the services computed for another port and the same connection
    data, reconciliation adds the layer for the configured port, restarts
    the process and leaves the plan's command ending in the configured
    port. *)
Theorem port_change_is_applied (w : World) (d : gmap string string) (old : Z) :
  supervisor_reachable w = true ->
  database_connected w d ->
  current_services w = Service_to_dict <$> services (layer_of old d) ->
  old ≠ config_server_port w ->
  let w' := (_update_layer_and_restart w).2 in
  restarted w' = restarted w ++ ["fastapi-service"] /\
  added_layers w' =
    added_layers w ++ [("fastapi_demo", layer_of (config_server_port w) d)] /\
  command <$> plan_services w' !! "fastapi-service" =
    Some ("uvicorn api_demo_server.app:app --host=0.0.0.0 --port="
          +:+ str_of_int (config_server_port w)).
Proof.
  intros Hreach Hdb Hold Hport. cbn zeta.
  assert (current_services w ≠ new_services w d) as Hne.
  { rewrite Hold. intros Heq.
    apply (f_equal (fun m : gmap string ServiceDict =>
                      m !! "fastapi-service" ≫= sd_command)) in Heq.
    rewrite new_services_singleton, lookup_singleton_eq in Heq.
    unfold layer_of in Heq. cbn [services] in Heq.
    rewrite map_fmap_singleton, lookup_singleton_eq in Heq.
    cbn in Heq. injection Heq as Heq.
    apply (append_inj_r "") in Heq.
    by apply str_of_int_inj in Heq. }
  destruct (reconcile_apply w d Hreach Hdb Hne) as [v ->].
  cbn [snd]. repeat split.
  unfold after_apply.
  cbn [plan_services with_unit_status with_workload_versions with_restarted
       with_added_layers with_plan_services].
  rewrite lookup_union. unfold layer_of. cbn [services].
  rewrite lookup_singleton_eq. by destruct (plan_services w !! _).
Qed.

Lemma port_change_is_applied_witness :
  restarted (_update_layer_and_restart port_changed_unit).2 =
    ["fastapi-service"; "fastapi-service"] /\
  command <$> plan_services (_update_layer_and_restart port_changed_unit).2
                !! "fastapi-service" =
    Some "uvicorn api_demo_server.app:app --host=0.0.0.0 --port=1234".
Proof.
  assert (database_connected port_changed_unit postgres_db_data) as Hdb
    by (vm_compute; reflexivity).
  assert (8000 ≠ config_server_port port_changed_unit) as Hport
    by (by vm_compute).
  destruct (port_change_is_applied port_changed_unit postgres_db_data 8000
              eq_refl Hdb (current_services_fmap _) Hport) as (Hr & _ & Hc).
  split; [exact Hr|exact Hc].
Defined.

(** ** The peer counter *)

Lemma count_from_counter w bag (N : Z) :
  peer_app_data w = Some bag ->
  unit_is_leader w = true ->
  bag !! "unit_stats" = Some (json_dumps [("started_counter", N)]) ->
  _count w =
    (Returns tt,
     with_peer_app_data
       (Some (<[ "unit_stats" := json_dumps [("started_counter", N + 1)] ]> bag)) w).
Proof.
  intros Hbag Hleader Hkey.
  rewrite (count_records w bag {[ "started_counter" := N ]} Hbag Hleader).
  - by rewrite lookup_singleton_eq.
  - eapply get_peer_data_loads; eauto using json_loads_dumps_counter.
Qed.

Lemma repeatedly_count_from w bag (N : Z) (n : nat) :
  peer_app_data w = Some bag ->
  unit_is_leader w = true ->
  bag !! "unit_stats" = Some (json_dumps [("started_counter", N)]) ->
  repeatedly n _count w =
    (Returns tt,
     with_peer_app_data
       (Some (<[ "unit_stats" := json_dumps [("started_counter", N + Z.of_nat n)] ]>
                bag)) w).
Proof.
  revert w bag N. induction n as [|n IH]; intros w bag N Hbag Hleader Hkey.
  - cbn [repeatedly]. rewrite Z.add_0_r, (insert_id bag _ _ Hkey).
    destruct w. cbn in Hbag. by subst.
  - cbn [repeatedly].
    rewrite (bind_returns _ _ _ _ _ (count_from_counter w bag N Hbag Hleader Hkey)).
    erewrite IH; [|reflexivity|exact Hleader|apply lookup_insert_eq].
    rewrite insert_insert_eq.
    by replace (N + 1 + Z.of_nat n) with (N + Z.of_nat (S n)) by lia.
Qed.

(** X13.  Unit starts compose on the leader: with the peer relation
    present, on a peer data bag without a counter [n+1] unit-start
    notifications in a row all return and leave [{"started_counter": n+1}]
    under "unit_stats"; on a bag holding counter [N], [n] notifications
    leave [N+n].  Nothing else in the state changes.  On a unit that is not
    the leader a unit start over such a bag raises
    [RelationDataAccessError] and changes nothing. *)
Theorem unit_starts_add_up (w : World) (bag : gmap string string) (n : nat) :
  peer_app_data w = Some bag ->
  (unit_is_leader w = true ->
   bag !! "unit_stats" = None ->
   repeatedly (S n) (dispatch start) w =
     (Returns tt,
      with_peer_app_data
        (Some (<[ "unit_stats" :=
                    json_dumps [("started_counter", Z.of_nat (S n))] ]> bag)) w)) /\
  (forall N : Z,
     unit_is_leader w = true ->
     bag !! "unit_stats" = Some (json_dumps [("started_counter", N)]) ->
     repeatedly n (dispatch start) w =
       (Returns tt,
        with_peer_app_data
          (Some (<[ "unit_stats" :=
                      json_dumps [("started_counter", N + Z.of_nat n)] ]> bag)) w)) /\
  (forall N : Z,
     unit_is_leader w = false ->
     bag !! "unit_stats" = None \/
     bag !! "unit_stats" = Some (json_dumps [("started_counter", N)]) ->
     dispatch start w = (Raises RelationDataAccessError, w)).
Proof.
  change (dispatch start) with _count.
  intros Hbag. split; [|split].
  - intros Hleader Hkey. cbn [repeatedly].
    assert (_count w =
              (Returns tt,
               with_peer_app_data
                 (Some (<[ "unit_stats" := json_dumps [("started_counter", 1)] ]> bag))
                 w)) as Hfirst.
    { rewrite (count_records w bag ∅ Hbag Hleader); [done|].
      by apply (get_peer_data_absent_key w bag). }
    rewrite (bind_returns _ _ _ _ _ Hfirst).
    erewrite (repeatedly_count_from _ _ 1 n);
      [|reflexivity|exact Hleader|apply lookup_insert_eq].
    rewrite insert_insert_eq.
    by replace (1 + Z.of_nat n) with (Z.of_nat (S n)) by lia.
  - intros N Hleader Hkey. by apply repeatedly_count_from.
  - intros N Hleader [Hkey|Hkey].
    + apply (count_follower w bag ∅ Hbag Hleader).
      by apply (get_peer_data_absent_key w bag).
    + apply (count_follower w bag {[ "started_counter" := N ]} Hbag Hleader).
      eapply get_peer_data_loads; eauto using json_loads_dumps_counter.
Qed.

Lemma unit_starts_add_up_witness :
  peer_app_data (repeatedly 3 (dispatch start) database_unit).2 =
    Some {[ "unit_stats" := json_dumps [("started_counter", 3)] ]} /\
  dispatch start follower_unit = (Raises RelationDataAccessError, follower_unit).
Proof.
  split.
  - rewrite (proj1 (unit_starts_add_up database_unit ∅ 2 eq_refl) eq_refl eq_refl).
    reflexivity.
  - apply (proj2 (proj2 (unit_starts_add_up follower_unit _ 0 eq_refl)) 2 eq_refl).
    right. apply lookup_singleton_eq.
Defined.

Lemma get_peer_data_cases w bag key :
  peer_app_data w = Some bag ->
  (exists d, get_peer_data key w = (Returns d, w)) \/
  get_peer_data key w = (Raises OutsideModel, w).
Proof.
  intros Hbag. unfold get_peer_data. run. rewrite Hbag.
  destruct (default "" (bag !! key)) as [|c doc]; [left; by eexists|].
  destruct (json_loads (String c doc)); [left; by eexists|by right].
Qed.

Lemma count_cases w :
  _count w = ((_count w).1, w) \/
  exists bag v, peer_app_data w = Some bag /\
    (_count w).2 = with_peer_app_data (Some (<[ "unit_stats" := v ]> bag)) w.
Proof.
  destruct (peer_app_data w) as [bag|] eqn:Hbag.
  - destruct (get_peer_data_cases w bag "unit_stats" Hbag) as [[d Hget]|Hget].
    + destruct (unit_is_leader w) eqn:Hleader.
      * right. exists bag. eexists. split; [done|].
        by rewrite (count_records w bag d Hbag Hleader Hget).
      * left. by rewrite (count_follower w bag d Hbag Hleader Hget).
    + left. unfold _count. by rewrite (bind_raises _ _ _ _ _ Hget).
  - left. unfold _count, get_peer_data, set_peer_data. run.
    rewrite Hbag. cbn. by rewrite Hbag.
Qed.

(** X14.  A unit-start notification, whatever its outcome, touches nothing
    but the "unit_stats" entry of the peer data bag: every other entry of
    the bag and every other part of the state stay as they were. *)
Theorem unit_start_touches_only_counter (w : World) :
  let w' := (dispatch start w).2 in
  unit_status w' = unit_status w /\
  opened_ports w' = opened_ports w /\
  plan_services w' = plan_services w /\
  added_layers w' = added_layers w /\
  restarted w' = restarted w /\
  workload_versions w' = workload_versions w /\
  action_results w' = action_results w /\
  (peer_app_data w = None -> peer_app_data w' = None) /\
  (forall bag, peer_app_data w = Some bag ->
     exists bag', peer_app_data w' = Some bag' /\
       forall k, k ≠ "unit_stats" -> bag' !! k = bag !! k).
Proof.
  cbn [dispatch]. cbn zeta.
  destruct (count_cases w) as [Hsame|(bag & v & Hbag & Hw')].
  - rewrite Hsame. cbn [snd]. repeat split; [done|].
    intros bag Hbag. by exists bag.
  - rewrite Hw'. repeat split.
    + by rewrite Hbag.
    + intros bag0 Hbag0. rewrite Hbag in Hbag0. injection Hbag0 as <-.
      eexists. split; [reflexivity|]. intros k Hk. by rewrite lookup_insert_ne.
Qed.

(** ** json.loads after json.dumps, for any dictionary *)

Lemma append_cons c (a b : string) : String c a +:+ b = String c (a +:+ b).
Proof. reflexivity. Qed.

Lemma append_assoc (a b c : string) : (a +:+ b) +:+ c = a +:+ (b +:+ c).
Proof. induction a as [|x a IH]; [done|]. by rewrite !append_cons, IH. Qed.

Lemma length_append (a b : string) :
  String.length (a +:+ b) = (String.length a + String.length b)%nat.
Proof.
  induction a as [|x a IH]; [done|].
  rewrite append_cons. cbn [String.length]. by rewrite IH.
Qed.

Lemma json_dumps_members d :
  json_dumps d = String "{" (join ", " (json_member <$> d) +:+ "}").
Proof. reflexivity. Qed.

Lemma json_member_append kv tail :
  json_member kv +:+ tail =
    String dquote (kv.1 +:+ String dquote
      (String ":" (String " " (str_of_int kv.2 +:+ tail)))).
Proof.
  unfold json_member. rewrite append_cons, append_assoc.
  by rewrite !append_cons.
Qed.

Lemma scan_string_plain k rest :
  all_plain k = true ->
  scan_string (k +:+ String dquote rest) = Some (k, rest).
Proof.
  induction k as [|c k IH]; [done|]. cbn [all_plain].
  intros [Hc Hk]%andb_prop. simpl. rewrite (IH Hk), Hc.
  unfold is_plain in Hc.
  apply andb_prop in Hc as [Hc _]. apply andb_prop in Hc as [_ Hq].
  apply negb_true_iff in Hq. by rewrite Hq.
Qed.

Lemma parse_int_str_of_int_before n c rest :
  is_digit c || Ascii.eqb c "-" = false ->
  c ≠ "."%char -> c ≠ "e"%char -> c ≠ "E"%char ->
  parse_int (str_of_int n +:+ String c rest) = Some (n, String c rest).
Proof.
  intros Hc Hdot He HE. unfold parse_int.
  rewrite scan_number_app by (apply all_numeric_str_of_int || done).
  rewrite int_of_string_str_of_int, norm_to_int.
  destruct (Decimal.int_eq_dec _ _); [|done].
  rewrite bool_decide_false by (intros [?|[?|?]]; done).
  by rewrite DecimalZ.of_to.
Qed.

Lemma parse_members_last fuel kv acc :
  all_plain kv.1 = true ->
  parse_members (S fuel) (json_member kv +:+ "}") acc = Some (<[kv.1 := kv.2]> acc).
Proof.
  intros Hk. rewrite json_member_append. cbn [parse_members].
  rewrite Ascii.eqb_refl, (scan_string_plain _ _ Hk).
  change (skip_ws (String ":" ?s)) with (String ":" s). cbv beta iota.
  change (skip_ws (String " " ?s)) with (skip_ws s).
  rewrite skip_ws_str_of_int.
  by rewrite (parse_int_str_of_int_before kv.2 "}" "").
Qed.

Lemma parse_members_next fuel kv rest acc :
  all_plain kv.1 = true ->
  parse_members (S fuel) (json_member kv +:+ String "," (String " " rest)) acc =
    parse_members fuel (skip_ws rest) (<[kv.1 := kv.2]> acc).
Proof.
  intros Hk. rewrite json_member_append. cbn [parse_members].
  rewrite Ascii.eqb_refl, (scan_string_plain _ _ Hk).
  change (skip_ws (String ":" ?s)) with (String ":" s). cbv beta iota.
  change (skip_ws (String " " ?s)) with (skip_ws s).
  rewrite skip_ws_str_of_int.
  by rewrite (parse_int_str_of_int_before kv.2 "," _).
Qed.

Lemma join_members_head kv d :
  exists tail, join ", " (json_member <$> kv :: d) = String dquote tail.
Proof. destruct d; cbn [fmap list_fmap join]; unfold json_member; by eexists. Qed.

Lemma parse_members_dumps d kv fuel acc :
  Forall (fun kv : string * Z => all_plain kv.1 = true) (kv :: d) ->
  (length d <= fuel)%nat ->
  parse_members (S fuel) (join ", " (json_member <$> kv :: d) +:+ "}") acc =
    Some (foldl (fun m (kv : string * Z) => <[kv.1 := kv.2]> m) acc (kv :: d)).
Proof.
  revert kv fuel acc. induction d as [|kv2 d IH]; intros kv fuel acc Hplain Hfuel.
  - cbn [fmap list_fmap join foldl]. apply parse_members_last.
    by inversion Hplain.
  - inversion Hplain as [|? ? Hkv Hrest]; subst.
    destruct fuel as [|fuel]; [cbn in Hfuel; lia|].
    change (join ", " (json_member <$> kv :: kv2 :: d))
      with (json_member kv +:+ ", " +:+ join ", " (json_member <$> kv2 :: d)).
    rewrite !append_assoc.
    change (", " +:+ join ", " (json_member <$> kv2 :: d) +:+ "}")
      with (String "," (String " " (join ", " (json_member <$> kv2 :: d) +:+ "}"))).
    rewrite (parse_members_next _ _ _ _ Hkv).
    destruct (join_members_head kv2 d) as [tail Htail].
    assert (skip_ws (join ", " (json_member <$> kv2 :: d) +:+ "}")
            = join ", " (json_member <$> kv2 :: d) +:+ "}") as ->
      by (by rewrite Htail).
    rewrite (IH kv2 fuel _ Hrest); [done|]. cbn in Hfuel. lia.
Qed.

Lemma length_join_members d :
  (length d <= String.length (join ", " (json_member <$> d)))%nat.
Proof.
  induction d as [|kv [|kv2 d] IH]; [done|cbn; lia|].
  change (join ", " (json_member <$> kv :: kv2 :: d))
    with (json_member kv +:+ ", " +:+ join ", " (json_member <$> kv2 :: d)).
  rewrite !length_append. cbn [length] in *. unfold json_member at 1.
  cbn [String.length]. lia.
Qed.

Lemma foldl_insert_list_to_map (d : list (string * Z)) (acc : gmap string Z) :
  foldl (fun m (kv : string * Z) => <[kv.1 := kv.2]> m) acc d =
    list_to_map (reverse d) ∪ acc.
Proof.
  revert acc. induction d as [|[k v] d IH]; intros acc.
  - by rewrite reverse_nil, list_to_map_nil, (left_id_L ∅ (∪)).
  - cbn [foldl]. rewrite IH, reverse_cons, list_to_map_app.
    cbn [list_to_map foldr fst snd]. rewrite insert_empty.
    by rewrite <- (assoc_L (∪)), <- insert_union_singleton_l.
Qed.

Lemma json_loads_members s tail :
  s = String dquote tail ->
  json_loads (String "{" (s +:+ "}")) =
    parse_members (S (String.length s + 1)) (s +:+ "}") ∅.
Proof.
  intros ->.
  transitivity
    (parse_members (S (String.length (String dquote tail +:+ "}")))
       (String dquote tail +:+ "}") ∅); [reflexivity|].
  by rewrite length_append.
Qed.

Lemma json_loads_dumps (d : list (string * Z)) :
  Forall (fun kv : string * Z => all_plain kv.1 = true) d ->
  NoDup d.*1 ->
  json_loads (json_dumps d) = Some (list_to_map d).
Proof.
  intros Hplain Hnodup. rewrite json_dumps_members.
  destruct d as [|kv d]; [reflexivity|].
  destruct (join_members_head kv d) as [tail Htail].
  rewrite (json_loads_members _ tail Htail).
  rewrite parse_members_dumps; [|done|].
  - rewrite foldl_insert_list_to_map, (right_id_L ∅ (∪)).
    f_equal. symmetry. apply list_to_map_proper; [done|].
    by rewrite reverse_Permutation.
  - pose proof (length_join_members (kv :: d)) as Hlen. cbn [length] in Hlen. lia.
Qed.

(** X15.  Writing and reading peer data with the peer relation present.
    On the leader, [set_peer_data key data] returns and changes nothing but
    the entry [key] of the bag, and a following [get_peer_data key] returns
    [data], for every dictionary of plain string keys to integers.  On a
    unit that is not the leader the write raises [RelationDataAccessError]
    and stores nothing, while [get_peer_data] still reads what the bag
    holds. *)
Theorem peer_data_round_trip (w : World) (bag : gmap string string)
    (key : string) (data : list (string * Z)) :
  peer_app_data w = Some bag ->
  Forall (fun kv : string * Z => all_plain kv.1 = true) data ->
  NoDup data.*1 ->
  let w1 := with_peer_app_data (Some (<[ key := json_dumps data ]> bag)) w in
  (unit_is_leader w = true ->
   set_peer_data key data w = (Returns tt, w1) /\
   get_peer_data key w1 = (Returns (list_to_map data), w1) /\
   (set_peer_data key data;; get_peer_data key) w =
     (Returns (list_to_map data), w1)) /\
  (unit_is_leader w = false ->
   set_peer_data key data w = (Raises RelationDataAccessError, w) /\
   (bag !! key = Some (json_dumps data) ->
    get_peer_data key w = (Returns (list_to_map data), w))).
Proof.
  intros Hbag Hplain Hnodup w1. split.
  - intros Hleader.
    assert (set_peer_data key data w = (Returns tt, w1)) as Hset
      by (unfold set_peer_data; run; by rewrite Hbag, Hleader).
    assert (get_peer_data key w1 = (Returns (list_to_map data), w1)) as Hget.
    { apply (get_peer_data_loads w1 (<[ key := json_dumps data ]> bag) key
               (json_dumps data)); [done|apply lookup_insert_eq|].
      by apply json_loads_dumps. }
    split; [done|]. split; [done|].
    by rewrite (bind_returns _ _ _ _ _ Hset).
  - intros Hleader. split.
    + unfold set_peer_data. run. by rewrite Hbag, Hleader.
    + intros Hkey. apply (get_peer_data_loads w bag key (json_dumps data));
        [done..|]. by apply json_loads_dumps.
Qed.

Lemma peer_data_round_trip_witness :
  (set_peer_data "unit_stats" [("started_counter", 5)];;
   get_peer_data "unit_stats") database_unit =
    (Returns {[ "started_counter" := 5 ]},
     with_peer_app_data
       (Some {[ "unit_stats" := json_dumps [("started_counter", 5)] ]})
       database_unit) /\
  set_peer_data "unit_stats" [("started_counter", 5)] follower_unit =
    (Raises RelationDataAccessError, follower_unit).
Proof.
  assert (Forall (fun kv : string * Z => all_plain kv.1 = true)
            [("started_counter", 5)]) as Hplain by (by repeat constructor).
  assert (NoDup [("started_counter", 5)].*1) as Hnodup by apply NoDup_singleton.
  split.
  - exact (proj2 (proj2 (proj1 (peer_data_round_trip database_unit ∅ "unit_stats"
                                  [("started_counter", 5)] eq_refl Hplain Hnodup)
                           eq_refl))).
  - exact (proj1 (proj2 (peer_data_round_trip follower_unit _ "unit_stats"
                           [("started_counter", 5)] eq_refl Hplain Hnodup)
                    eq_refl)).
Defined.

(** ** What the other handlers leave alone *)

Lemma keeps_attempt {A X : Type} (f : World -> X) (m : Handler A) :
  keeps f m -> keeps f (attempt m).
Proof.
  intros Hm w. unfold attempt. specialize (Hm w). by destruct (m w).
Qed.

(** X16.  The get-db-info action only reports: whatever its parameters and
    its outcome, it never changes the plan, the added layers, the restarts,
    the reported versions, the opened ports or the peer data. *)
Theorem get_db_info_only_reports (w : World) (params : gmap string bool) :
  let w' := (dispatch (get_db_info_action params) w).2 in
  plan_services w' = plan_services w /\
  added_layers w' = added_layers w /\
  restarted w' = restarted w /\
  workload_versions w' = workload_versions w /\
  opened_ports w' = opened_ports w /\
  peer_app_data w' = peer_app_data w.
Proof.
  cbn [dispatch]. cbn zeta.
  assert (forall {X : Type} (f : World -> X),
            (forall x w, f (with_unit_status x w) = f w) ->
            (forall x w, f (with_action_results x w) = f w) ->
            keeps f (_on_get_db_info_action params)) as Hkeeps.
  { intros X f Hstatus Hresults. unfold _on_get_db_info_action.
    apply keeps_bind; [apply keeps_getitem|intros b].
    apply keeps_bind;
      [by apply keeps_attempt, fetch_postgres_relation_data_keeps|intros tried].
    assert (forall o, keeps f (set_results o)) as Hset
      by (intros o; unfold set_results; apply keeps_modify; intros; apply Hresults).
    destruct tried as [db_data|[]]; cbn; frame. }
  repeat split; by apply Hkeeps.
Qed.

(** X17.  A configuration-changed notification with a port other than 22
    in 1..65535 while no database relation carries data: the port is opened
    all the same, then the handler ends with [SystemExit(0)] and the status
    Waiting for the database relation; the plan is not touched and nothing
    is restarted. *)
Theorem config_changed_without_database (w : World) :
  config_server_port w ≠ 22 ->
  1 <= config_server_port w <= 65535 ->
  supervisor_reachable w = true ->
  no_database_data w ->
  dispatch config_changed w =
    (Raises (SystemExit 0),
     with_unit_status (WaitingStatus "Waiting for database relation")
       (with_opened_ports {[ config_server_port w ]} w)).
Proof.
  intros Hport Hrange Hreach Hno. cbn [dispatch].
  rewrite (config_changed_other_port w Hport Hrange).
  by apply reconcile_without_database.
Qed.

Lemma config_changed_without_database_witness :
  dispatch config_changed fresh_unit =
    (Raises (SystemExit 0),
     with_unit_status (WaitingStatus "Waiting for database relation")
       (with_opened_ports {[ 8000 ]} fresh_unit)).
Proof.
  apply (config_changed_without_database fresh_unit).
  - by vm_compute.
  - by vm_compute.
  - reflexivity.
  - apply Forall_nil_2.
Defined.
